(** * reddit_bot.py: the comment monitor loop, embedded and verified

    A shallow embedding of [src/reddit_bot.py].  The script wraps the PRAW
    client: it opens a comment stream, skips the bot's own comments, compares
    each body with a trigger phrase after [.strip().lower()], and replies.

    Modelling choices.
    - A Python [str] is a list of code points.  The development covers the
      code points U+0000..U+00FF (Basic Latin and Latin-1 Supplement), one
      [ascii] each, on which [str.strip] and [str.lower] are closed and are
      given by the small tables below (CPython's [Py_UNICODE_ISSPACE] and
      the Unicode lower-case mapping restricted to that range).
    - PRAW is outside the repository.  Its calls are events of a trace, and
      the answers of the platform (what [reddit.user.me()] and
      [comment.reply()] return or raise, which comments the stream yields)
      are scripted in the input, so that the loop is an executable function.
    - [try ... except Exception] catches the instances of [Exception] and
      lets the other [BaseException]s through, as Python does. *)

From Stdlib Require Import List Ascii String Bool NArith ZArith Lia.
Import ListNotations.

(** ** Python strings *)

Module PyStr.

Definition str := list ascii.

(** A literal of the source, as a list of code points. *)
Definition py (s : string) : str := list_ascii_of_string s.

Definition ord (c : ascii) : N := N_of_ascii c.
Definition chr (n : N) : ascii := ascii_of_N n.

Definition between (lo hi n : N) : bool := (lo <=? n)%N && (n <=? hi)%N.

(** [str.isspace] on one code point: TAB..CR, FS..US, SPACE, NEL, NBSP. *)
Definition isspace (c : ascii) : bool :=
  let n := ord c in
  between 9 13 n || between 28 31 n || (n =? 32)%N || (n =? 133)%N || (n =? 160)%N.

(** The lower-case mapping: A..Z, and the Latin-1 capitals U+00C0..U+00DE
    without the multiplication sign U+00D7. *)
Definition is_upper (c : ascii) : bool :=
  let n := ord c in
  between 65 90 n || (between 192 222 n && negb (n =? 215)%N).

Definition lower_char (c : ascii) : ascii :=
  if is_upper c then chr (ord c + 32) else c.

(** [s.lower()] *)
Definition lower (s : str) : str := map lower_char s.

(** [s.lstrip()], [s.rstrip()], [s.strip()]: CPython's [do_strip] moves a
    left index past the leading white space, then a right index back over
    the trailing white space, and returns the slice in between. *)
Fixpoint lstrip (s : str) : str :=
  match s with
  | [] => []
  | c :: s' => if isspace c then lstrip s' else s
  end.

Definition rstrip (s : str) : str := rev (lstrip (rev s)).

Definition strip (s : str) : str := rstrip (lstrip s).

(** [a == b] on strings. *)
Fixpoint str_eqb (a b : str) : bool :=
  match a, b with
  | [], [] => true
  | x :: a', y :: b' => Ascii.eqb x y && str_eqb a' b'
  | _, _ => false
  end.

(** [sep.join(parts)] *)
Fixpoint join (sep : str) (parts : list str) : str :=
  match parts with
  | [] => []
  | [p] => p
  | p :: rest => p ++ sep ++ join sep rest
  end.

(** *** Case changes, used to state invariance of the match

    The single-character upper-case partner inside the range.  U+00DF,
    U+00B5 and U+00FF have none there (their upper-case forms are "SS",
    U+039C and U+0178) and are left alone. *)
Definition is_lower_paired (c : ascii) : bool :=
  let n := ord c in
  between 97 122 n || (between 224 254 n && negb (n =? 247)%N).

Definition upper_char (c : ascii) : ascii :=
  if is_lower_paired c then chr (ord c - 32) else c.

Inductive casing := KeepCase | LowerCase | UpperCase.

Definition recase_char (k : casing) (c : ascii) : ascii :=
  match k with
  | KeepCase => c
  | LowerCase => lower_char c
  | UpperCase => upper_char c
  end.

(** A change of letter casing chosen character by character; characters
    past the end of the choice list are kept. *)
Fixpoint recase (ks : list casing) (s : str) : str :=
  match ks, s with
  | k :: ks', c :: s' => recase_char k c :: recase ks' s'
  | _, _ => s
  end.

(** [s.upper()], the full mapping: U+00DF becomes "SS".  [None] when the
    result leaves the range (U+00B5, U+00FF). *)
Definition py_upper_char (c : ascii) : option str :=
  let n := ord c in
  if (n =? 223)%N then Some (py "SS")
  else if (n =? 181)%N || (n =? 255)%N then None
  else Some [upper_char c].

Fixpoint py_upper (s : str) : option str :=
  match s with
  | [] => Some []
  | c :: s' =>
      match py_upper_char c, py_upper s' with
      | Some u, Some r => Some (u ++ r)
      | _, _ => None
      end
  end.

(** U+00DF, LATIN SMALL LETTER SHARP S. *)
Definition sharp_s : ascii := chr 223.

End PyStr.
Import PyStr.


(** ** The platform client (PRAW), as the script sees it *)

(** [comment.author] and the value of [reddit.user.me()]: only [.name] is read. *)
Record Redditor := { redditor_name : str }.

(** [comment.subreddit]: only [.display_name] is read. *)
Record Subreddit := { display_name : str }.

(** The attributes of a comment that the loop reads.  [comment_author] is
    [None] for a deleted or unavailable author. *)
Record Comment := {
  comment_id : str;
  comment_body : str;
  comment_author : option Redditor;
  comment_subreddit : Subreddit
}.

(** Exception classes a call of the client can raise.  The last two derive
    from [BaseException] only. *)
Inductive exc_class :=
| Forbidden            (* 403: permission denied *)
| NotFound             (* 404: the comment is gone *)
| TooManyRequests      (* 429: rate limit *)
| RequestException     (* network failure *)
| RedditAPIException   (* an error item of the API, e.g. DELETED_COMMENT *)
| AttributeError
| KeyboardInterrupt
| SystemExit.

(** A raised exception: its class and [str(e)], what [%s] prints. *)
Record PyExc := { exc_cls : exc_class; exc_str : str }.

(** [isinstance(e, Exception)] *)
Definition is_Exception (e : PyExc) : bool :=
  match exc_cls e with
  | KeyboardInterrupt | SystemExit => false
  | _ => true
  end.

(** What a call does: it returns a value or raises. *)
Inductive outcome (A : Type) :=
| Returns (a : A)
| Raises (e : PyExc).
Arguments Returns {A} a.
Arguments Raises {A} e.

(** One element of the stream together with the platform's answers during
    its iteration: what [reddit.user.me()] does, and what
    [comment.reply(...)] does if it is called. *)
Record Delivery := {
  comment : Comment;
  me_outcome : outcome Redditor;
  reply_outcome : outcome unit
}.

(** The comments of a subreddit path.  [existing] are those created before
    the stream is opened (PRAW emits up to 100 of them on start unless told
    to skip them, lines 104-105 of the source), [arriving] those created
    afterwards.  The modelled prefix of the endless stream stops with
    [ending]: [None] when the generator is exhausted, [Some e] when it raises. *)
Record Feed := {
  existing : list Delivery;
  arriving : list Delivery;
  ending : option PyExc
}.

(** [reddit.subreddit(path)] gives access to the feed of [path]. *)
Record Reddit := { subreddit_feed : str -> Feed }.

(** ** Observable calls *)

Inductive level := INFO | ERROR.

Inductive Event :=
| subreddit_call (path : str)                              (* reddit.subreddit(path) *)
| logging_call (lvl : level) (fmt : str) (args : list str)  (* logging.info / logging.error *)
| stream_comments_call (skip_existing : bool)              (* subreddit.stream.comments(skip_existing=...) *)
| user_me_call                                             (* reddit.user.me() *)
| reply_call (target : str) (text : str)                   (* comment.reply(text), on the comment with this id *)
| sleep_call (secs : Z).                                   (* time.sleep(secs) *)

(** ** The monad of the function body

    The local variables that an iteration assigns, the trace of calls, and
    a value or a raised exception. *)

Record Locals := {
  me : option Redditor;
  body_normalized : option str
}.

Definition unbound : Locals := {| me := None; body_normalized := None |}.

Record Run (A : Type) := {
  locals_after : Locals;
  events : list Event;
  result : outcome A
}.

Arguments locals_after {A} _.
Arguments events {A} _.
Arguments result {A} _.

Definition M (A : Type) : Type := Locals -> Run A.

Definition ret {A} (a : A) : M A :=
  fun l => {| locals_after := l; events := []; result := Returns a |}.

Definition raise {A} (e : PyExc) : M A :=
  fun l => {| locals_after := l; events := []; result := Raises e |}.

(** The calls of [evs] happened before the run [r]. *)
Definition after {A} (evs : list Event) (r : Run A) : Run A :=
  {| locals_after := locals_after r; events := evs ++ events r; result := result r |}.

Definition bind {A B} (m : M A) (k : A -> M B) : M B :=
  fun l =>
    let r := m l in
    match result r with
    | Returns a => after (events r) (k a (locals_after r))
    | Raises e => {| locals_after := locals_after r; events := events r; result := Raises e |}
    end.

Notation "x <- m ;; k" := (bind m (fun x => k))
  (at level 61, m at next level, right associativity).
Notation "m ;; k" := (bind m (fun _ => k))
  (at level 61, right associativity).

Definition emit (ev : Event) : M unit :=
  fun l => {| locals_after := l; events := [ev]; result := Returns tt |}.

(** A platform call: the event, then the scripted outcome. *)
Definition call {A} (ev : Event) (o : outcome A) : M A :=
  fun l => {| locals_after := l; events := [ev]; result := o |}.

(** [try: m except Exception as e: h e] *)
Definition try_except {A} (m : M A) (h : PyExc -> M A) : M A :=
  fun l =>
    let r := m l in
    match result r with
    | Returns _ => r
    | Raises e =>
        if is_Exception e then after (events r) (h e (locals_after r)) else r
    end.

Definition assign_me (m : Redditor) : M unit :=
  fun l => {| locals_after := {| me := Some m; body_normalized := body_normalized l |};
              events := []; result := Returns tt |}.

Definition assign_body_normalized (b : str) : M unit :=
  fun l => {| locals_after := {| me := me l; body_normalized := Some b |};
              events := []; result := Returns tt |}.

Definition logging_info (fmt : string) (args : list str) : M unit :=
  emit (logging_call INFO (py fmt) args).

Definition logging_error (fmt : string) (args : list str) : M unit :=
  emit (logging_call ERROR (py fmt) args).

Definition time_sleep (secs : Z) : M unit := emit (sleep_call secs).

Definition user_me (d : Delivery) : M Redditor := call user_me_call (me_outcome d).

Definition comment_reply (d : Delivery) (text : str) : M unit :=
  call (reply_call (comment_id (comment d)) text) (reply_outcome d).

Definition reddit_subreddit (reddit : Reddit) (path : str) : M Feed :=
  call (subreddit_call path) (Returns (subreddit_feed reddit path)).

(** [subreddit.stream.comments(skip_existing=flag)] *)
Definition stream_comments (f : Feed) (skip_existing : bool) : M (list Delivery) :=
  call (stream_comments_call skip_existing)
       (Returns (if skip_existing then arriving f else existing f ++ arriving f)).

(** The end of the [for] statement's iterator. *)
Definition stream_end (f : Feed) : M unit :=
  match ending f with
  | None => ret tt
  | Some e => raise e
  end.

(** ** monitor_comments *)

(** How an iteration leaves the self-author check: by [continue], or on to
    the statements after the [try]. *)
Inductive flow := Continue | Fallthrough.

(** [comment.author and comment.author.name == me.name] *)
Definition author_is (c : Comment) (m : Redditor) : bool :=
  match comment_author c with
  | None => false
  | Some a => str_eqb (redditor_name a) (redditor_name m)
  end.

(** Lines 108-114. *)
Definition check_self (d : Delivery) : M flow :=
  try_except
    (m <- user_me d ;;
     assign_me m ;;
     if author_is (comment d) m then ret Continue else ret Fallthrough)
    (fun _ => ret Fallthrough).

(** Lines 117-129. *)
Definition check_trigger (trigger_normalized reply_text : str) (d : Delivery) : M unit :=
  let b := lower (strip (comment_body (comment d))) in
  assign_body_normalized b ;;
  if str_eqb b trigger_normalized then
    try_except
      (logging_info "Replying to comment id=%s in r/%s"
         [comment_id (comment d); display_name (comment_subreddit (comment d))] ;;
       comment_reply d reply_text ;;
       time_sleep 2)
      (fun e =>
         logging_error "Failed to reply to comment %s: %s" [comment_id (comment d); exc_str e] ;;
         time_sleep 5)
  else ret tt.

(** The body of the [for] loop, lines 107-129. *)
Definition loop_body (trigger_normalized reply_text : str) (d : Delivery) : M unit :=
  f <- check_self d ;;
  match f with
  | Continue => ret tt
  | Fallthrough => check_trigger trigger_normalized reply_text d
  end.

(** [for comment in comments: body] *)
Fixpoint for_each (body : Delivery -> M unit) (comments : list Delivery) : M unit :=
  match comments with
  | [] => ret tt
  | d :: rest => body d ;; for_each body rest
  end.

Definition monitor_comments (reddit : Reddit) (subreddits : list str)
    (trigger_phrase reply_text : str) : M unit :=
  let subreddit_path := join (py "+") subreddits in
  subreddit <- reddit_subreddit reddit subreddit_path ;;
  let trigger_normalized := lower (strip trigger_phrase) in
  logging_info "Starting comment stream for r/%s; trigger phrase='%s'"
    [subreddit_path; trigger_phrase] ;;
  comments <- stream_comments subreddit true ;;
  for_each (loop_body trigger_normalized reply_text) comments ;;
  stream_end subreddit.

(** ** main *)

Definition SUBREDDITS : list str := [py "all"].
Definition TRIGGER_PHRASE : str := py "New response just dropped".
Definition REPLY_TEXT : str := py "Actual Zombie".

(** [reddit] is the value of [create_reddit_instance()]. *)
Definition main (reddit : Reddit) : M Z :=
  monitor_comments reddit SUBREDDITS TRIGGER_PHRASE REPLY_TEXT ;;
  ret 0%Z.

(** ** Vocabulary of the specification *)

(** Normalisation of either side of the comparison: trimmed, then lower-cased. *)
Definition normalize (s : str) : str := lower (strip s).

(** The trigger-match decision on a body and a trigger phrase. *)
Definition trigger_match (body trigger_phrase : str) : bool :=
  str_eqb (normalize body) (normalize trigger_phrase).

Definition all_space (ws : str) : bool := forallb isspace ws.

Definition is_reply (ev : Event) : bool :=
  match ev with reply_call _ _ => true | _ => false end.

(** The reply attempts of a trace. *)
Definition reply_attempts (evs : list Event) : list Event := filter is_reply evs.

(** The durations slept in a trace, in order. *)
Fixpoint sleeps (evs : list Event) : list Z :=
  match evs with
  | [] => []
  | sleep_call n :: rest => n :: sleeps rest
  | _ :: rest => sleeps rest
  end.

(** The own identity was resolved and is the author's. *)
Definition self_authored (d : Delivery) : bool :=
  match me_outcome d with
  | Returns m => author_is (comment d) m
  | Raises _ => false
  end.

(** Resolving the own identity failed with an error the [try] catches. *)
Definition identity_lookup_fails (d : Delivery) : bool :=
  match me_outcome d with
  | Returns _ => false
  | Raises e => is_Exception e
  end.

(** Resolving the own identity was interrupted by something that is not an
    [Exception]; it leaves the function. *)
Definition identity_lookup_interrupted (d : Delivery) : bool :=
  match me_outcome d with
  | Returns _ => false
  | Raises e => negb (is_Exception e)
  end.

(** The reply attempt was interrupted by something that is not an [Exception]. *)
Definition reply_interrupted (d : Delivery) : bool :=
  match reply_outcome d with
  | Returns _ => false
  | Raises e => negb (is_Exception e)
  end.

(** Whatever the platform raises during the iteration is an [Exception]. *)
Definition uninterrupted (d : Delivery) : bool :=
  negb (identity_lookup_interrupted d) && negb (reply_interrupted d).

(** The reply that the specification expects for a delivery. *)
Definition expected_replies (trigger_phrase reply_text : str) (d : Delivery) : list Event :=
  if self_authored d then []
  else if trigger_match (comment_body (comment d)) trigger_phrase
       then [reply_call (comment_id (comment d)) reply_text]
       else [].

(** The action log and the error log of [check_trigger]. *)
Definition action_log (c : Comment) : Event :=
  logging_call INFO (py "Replying to comment id=%s in r/%s")
    [comment_id c; display_name (comment_subreddit c)].

Definition error_log (c : Comment) (e : PyExc) : Event :=
  logging_call ERROR (py "Failed to reply to comment %s: %s") [comment_id c; exc_str e].

(** What follows the reply attempt, by its outcome. *)
Definition reply_epilogue (d : Delivery) : list Event :=
  match reply_outcome d with
  | Returns _ => [sleep_call 2]
  | Raises e => if is_Exception e then [error_log (comment d) e; sleep_call 5] else []
  end.

Definition reply_result (d : Delivery) : outcome unit :=
  match reply_outcome d with
  | Returns _ => Returns tt
  | Raises e => if is_Exception e then Returns tt else Raises e
  end.

(** The start-up log of [monitor_comments], line 100. *)
Definition start_log (path trigger_phrase : str) : Event :=
  logging_call INFO (py "Starting comment stream for r/%s; trigger phrase='%s'")
    [path; trigger_phrase].

(** The [skip_existing] flags with which a trace opened comment streams. *)
Fixpoint stream_flags (evs : list Event) : list bool :=
  match evs with
  | [] => []
  | stream_comments_call b :: rest => b :: stream_flags rest
  | _ :: rest => stream_flags rest
  end.

(** The same platform with no comment older than the subscription. *)
Definition forget_existing (reddit : Reddit) : Reddit :=
  {| subreddit_feed := fun path =>
       {| existing := [];
          arriving := arriving (subreddit_feed reddit path);
          ending := ending (subreddit_feed reddit path) |} |}.

(** Two strings that agree, position by position, on white space and on
    lower-case forms. *)
Definition alike : str -> str -> Prop :=
  Forall2 (fun c d => isspace c = isspace d /\ lower_char c = lower_char d).

(** [respelling s t]: [t] is [s] up to leading and trailing white space
    and the case of its letters.  Adding white space and changing case are
    the generators; removing white space is the symmetric step. *)
Inductive respelling : str -> str -> Prop :=
| respell_pad (ws1 ws2 s : str) :
    all_space ws1 = true -> all_space ws2 = true -> respelling s (ws1 ++ s ++ ws2)
| respell_case (ks : list casing) (s : str) : respelling s (recase ks s)
| respell_refl (s : str) : respelling s s
| respell_sym (s t : str) : respelling s t -> respelling t s
| respell_trans (s t u : str) : respelling s t -> respelling t u -> respelling s u.

(** ** Sample data *)

Definition bot : Redditor := {| redditor_name := py "zombiebot" |}.
Definition alice : Redditor := {| redditor_name := py "alice" |}.
Definition chess : Subreddit := {| display_name := py "chess" |}.

Definition comment_by (who : option Redditor) (ident text : string) : Comment :=
  {| comment_id := py ident; comment_body := py text;
     comment_author := who; comment_subreddit := chess |}.

Definition permission_denied : PyExc :=
  {| exc_cls := Forbidden; exc_str := py "received 403 HTTP response" |}.
Definition network_down : PyExc :=
  {| exc_cls := RequestException; exc_str := py "connection reset" |}.
Definition interrupt : PyExc :=
  {| exc_cls := KeyboardInterrupt; exc_str := [] |}.

(** "Stra\u00dfe", and its upper-case form in Python, "STRASSE". *)
Definition strasse : str := py "Stra" ++ [sharp_s] ++ py "e".

Definition delivered (c : Comment) (m : outcome Redditor) (r : outcome unit) : Delivery :=
  {| comment := c; me_outcome := m; reply_outcome := r |}.

(** A platform on which one matching comment exists and none arrives. *)
Definition backlog_only : Reddit :=
  {| subreddit_feed := fun _ =>
       {| existing := [delivered (comment_by (Some alice) "c0" "New response just dropped")
                                 (Returns bot) (Returns tt)];
          arriving := [];
          ending := None |} |}.

(** A platform on which three comments arrive: a matching one that is
    answered, a matching one whose reply is refused, one that does not
    match; then the stream breaks. *)
Definition busy_platform : Reddit :=
  {| subreddit_feed := fun _ =>
       {| existing := [];
          arriving :=
            [ delivered (comment_by (Some alice) "w1" "New response just dropped")
                        (Returns bot) (Returns tt);
              delivered (comment_by None "w2" " new response just dropped ")
                        (Raises network_down) (Raises permission_denied);
              delivered (comment_by (Some alice) "w3" "Holy hell")
                        (Returns bot) (Returns tt) ];
          ending := Some network_down |} |}.

(** A platform on which the second of three matching comments is
    interrupted during the reply. *)
Definition interrupted_platform : Reddit :=
  {| subreddit_feed := fun _ =>
       {| existing := [];
          arriving :=
            [ delivered (comment_by (Some alice) "i1" "New response just dropped")
                        (Returns bot) (Returns tt);
              delivered (comment_by (Some alice) "i2" "New response just dropped")
                        (Returns bot) (Raises interrupt);
              delivered (comment_by (Some alice) "i3" "New response just dropped")
                        (Returns bot) (Returns tt) ];
          ending := None |} |}.

(** ** Measures of a trace, used for the properties beyond the claims *)

Definition is_lookup (ev : Event) : bool :=
  match ev with user_me_call => true | _ => false end.

(** The identity lookups of a trace. *)
Definition lookups (evs : list Event) : list Event := filter is_lookup evs.

(** The time slept in a trace. *)
Definition total_sleep (evs : list Event) : Z := fold_right Z.add 0%Z (sleeps evs).

(** The delay that a delivery costs: 2 after an answered reply, 5 after a
    refused one, nothing when no reply is attempted. *)
Definition delay_of (trigger_phrase : str) (d : Delivery) : Z :=
  if self_authored d then 0%Z
  else if trigger_match (comment_body (comment d)) trigger_phrase
       then match reply_outcome d with
            | Returns _ => 2%Z
            | Raises _ => 5%Z
            end
       else 0%Z.

(** The log lines of a trace at one level. *)
Definition is_log_at (lvl : level) (ev : Event) : bool :=
  match ev, lvl with
  | logging_call INFO _ _, INFO => true
  | logging_call ERROR _ _, ERROR => true
  | _, _ => false
  end.

Definition logs_at (lvl : level) (evs : list Event) : list Event :=
  filter (is_log_at lvl) evs.


(** * Properties *)

(** ** Strings *)

Section StringFacts.

Lemma str_eqb_refl (a : str) : str_eqb a a = true.
Proof.
  induction a as [|x a IH]; simpl; [reflexivity|].
  now rewrite Ascii.eqb_refl, IH.
Qed.

Lemma str_eqb_eq (a b : str) : str_eqb a b = true <-> a = b.
Proof.
  split; [|intros ->; apply str_eqb_refl].
  revert b; induction a as [|x a IH]; intros [|y b]; simpl; try discriminate; auto.
  intros H; apply andb_true_iff in H as [Hxy Hab].
  apply Ascii.eqb_eq in Hxy; subst y.
  now rewrite (IH b Hab).
Qed.

Lemma str_eqb_neq (a b : str) : str_eqb a b = false <-> a <> b.
Proof.
  rewrite <- str_eqb_eq. destruct (str_eqb a b); split; congruence.
Qed.

Lemma all_space_app (u v : str) : all_space (u ++ v) = all_space u && all_space v.
Proof. apply forallb_app. Qed.

Lemma all_space_rev (u : str) : all_space (rev u) = all_space u.
Proof.
  induction u as [|c u IH]; simpl; [reflexivity|].
  rewrite all_space_app, IH; simpl. rewrite andb_true_r. apply andb_comm.
Qed.

Lemma lstrip_all_space (s : str) : all_space s = true -> lstrip s = [].
Proof.
  induction s as [|c s IH]; simpl; [reflexivity|].
  destruct (isspace c); simpl; [exact IH|discriminate].
Qed.

(** White space in front of [t] is dropped together with a prefix that is
    white space only; otherwise stripping stops inside the prefix. *)
Lemma lstrip_app (s t : str) :
  lstrip (s ++ t) = if all_space s then lstrip t else lstrip s ++ t.
Proof.
  induction s as [|c s IH]; simpl; [reflexivity|].
  destruct (isspace c); simpl; [exact IH|reflexivity].
Qed.

Lemma rstrip_app_space (s ws : str) : all_space ws = true -> rstrip (s ++ ws) = rstrip s.
Proof.
  intros H. unfold rstrip.
  now rewrite rev_app_distr, lstrip_app, all_space_rev, H.
Qed.

Lemma strip_pad (ws1 ws2 s : str) :
  all_space ws1 = true -> all_space ws2 = true -> strip (ws1 ++ s ++ ws2) = strip s.
Proof.
  intros H1 H2. unfold strip.
  rewrite lstrip_app, H1, lstrip_app.
  destruct (all_space s) eqn:Hs.
  - now rewrite (lstrip_all_space _ H2), (lstrip_all_space _ Hs).
  - now apply rstrip_app_space.
Qed.

(** Changing the case of a character changes neither its lower-case form
    nor whether it is white space. *)
Lemma lower_recase_char (k : casing) (c : ascii) :
  lower_char (recase_char k c) = lower_char c.
Proof.
  destruct k, c as [[] [] [] [] [] [] [] []]; reflexivity.
Qed.

Lemma isspace_recase_char (k : casing) (c : ascii) :
  isspace (recase_char k c) = isspace c.
Proof.
  destruct k, c as [[] [] [] [] [] [] [] []]; reflexivity.
Qed.

Lemma alike_refl (s : str) : alike s s.
Proof. induction s; constructor; auto. Qed.

Lemma alike_recase (ks : list casing) (s : str) : alike s (recase ks s).
Proof.
  revert ks; induction s as [|c s IH]; intros [|k ks]; simpl;
    try apply alike_refl.
  constructor; [|apply IH].
  now rewrite isspace_recase_char, lower_recase_char.
Qed.

Lemma alike_lstrip (s t : str) : alike s t -> alike (lstrip s) (lstrip t).
Proof.
  induction 1 as [|c d s t [Hsp Hlo] Hst IH]; simpl; [constructor|].
  rewrite <- Hsp. destruct (isspace c) eqn:Hc; [exact IH|].
  constructor; [split; congruence|exact Hst].
Qed.

Lemma alike_rev (s t : str) : alike s t -> alike (rev s) (rev t).
Proof.
  induction 1 as [|c d s t Hcd Hst IH]; simpl; [constructor|].
  apply Forall2_app; [exact IH|]. constructor; [exact Hcd|constructor].
Qed.

Lemma alike_lower (s t : str) : alike s t -> lower s = lower t.
Proof.
  induction 1 as [|c d s t [_ Hlo] Hst IH]; simpl; [reflexivity|].
  now rewrite Hlo, IH.
Qed.

Lemma normalize_alike (s t : str) : alike s t -> normalize s = normalize t.
Proof.
  intros H. unfold normalize, strip, rstrip.
  apply alike_lower, alike_rev, alike_lstrip, alike_rev, alike_lstrip, H.
Qed.

Lemma normalize_recase (ks : list casing) (s : str) : normalize (recase ks s) = normalize s.
Proof. symmetry. apply normalize_alike, alike_recase. Qed.

Lemma normalize_pad (ws1 ws2 s : str) :
  all_space ws1 = true -> all_space ws2 = true -> normalize (ws1 ++ s ++ ws2) = normalize s.
Proof. intros H1 H2. unfold normalize. now rewrite strip_pad. Qed.

End StringFacts.

(** ** The trigger match *)

Lemma trigger_match_true (b t : str) : trigger_match b t = true <-> normalize b = normalize t.
Proof. apply str_eqb_eq. Qed.

Lemma respelling_normalize (s t : str) : respelling s t -> normalize s = normalize t.
Proof.
  induction 1 as [ws1 ws2 s H1 H2|ks s|s|s t _ IH|s t u _ IH1 _ IH2].
  - symmetry. now apply normalize_pad.
  - symmetry. apply normalize_recase.
  - reflexivity.
  - now symmetry.
  - now transitivity (normalize t).
Qed.

(** C2, as amended: the trigger-match decision is invariant under adding or
    removing leading and trailing white space on either side, and under any
    character-by-character change of case (each letter replaced by its
    upper-case or lower-case partner) on either side; so the body
    "  NEW RESPONSE JUST DROPPED  " matches the trigger
    "New response just dropped".  Case changes that are not character by
    character, such as Python's upper-casing of U+00DF to "SS", are not
    covered: the comparison lower-cases, it does not case-fold. *)
Theorem trigger_match_respelling :
  (forall B B' T T' : str,
      respelling B B' -> respelling T T' -> trigger_match B' T' = trigger_match B T)
  /\ trigger_match (py "  NEW RESPONSE JUST DROPPED  ") (py "New response just dropped") = true.
Proof.
  split; [|reflexivity].
  intros B B' T T' HB HT. unfold trigger_match.
  now rewrite (respelling_normalize _ _ HB), (respelling_normalize _ _ HT).
Qed.

(** The amended C2 at the scenario's strings: the upper-cased and padded
    body is a respelling of the trigger phrase. *)
Lemma trigger_match_respelling_witness :
  trigger_match (py "  " ++ py "NEW RESPONSE JUST DROPPED" ++ py "  ") TRIGGER_PHRASE
  = trigger_match TRIGGER_PHRASE TRIGGER_PHRASE.
Proof.
  apply (proj1 trigger_match_respelling).
  - apply respell_trans with (t := recase (repeat UpperCase 25) TRIGGER_PHRASE).
    + apply respell_case.
    + apply (respell_pad (py "  ") (py "  ")); reflexivity.
  - apply respell_refl.
Defined.

(** C2 as stated fails: "Stra(U+00DF)e".upper() is "STRASSE", a change of letter
    casing only, yet the trigger "Stra(U+00DF)e" matches the body "Stra(U+00DF)e"
    and not the body "STRASSE". *)
Lemma trigger_match_upper_counterexample :
  py_upper strasse = Some (py "STRASSE")
  /\ trigger_match strasse strasse = true
  /\ trigger_match (py "STRASSE") strasse = false.
Proof. repeat split. Qed.

(** ** The loop, one iteration at a time *)

Section Iteration.

Variables trigger_normalized reply_text : str.

Lemma check_trigger_run (d : Delivery) (l : Locals) :
  check_trigger trigger_normalized reply_text d l =
  let b := normalize (comment_body (comment d)) in
  let l' := {| me := me l; body_normalized := Some b |} in
  if str_eqb b trigger_normalized then
    {| locals_after := l';
       events := action_log (comment d)
                 :: reply_call (comment_id (comment d)) reply_text :: reply_epilogue d;
       result := reply_result d |}
  else {| locals_after := l'; events := []; result := Returns tt |}.
Proof.
  unfold check_trigger, reply_epilogue, reply_result, normalize, bind; simpl.
  destruct (str_eqb _ trigger_normalized); [|reflexivity].
  unfold try_except, bind; simpl.
  destruct (reply_outcome d) as [[]|e]; simpl; [reflexivity|].
  destruct (is_Exception e); reflexivity.
Qed.

Lemma loop_body_run (d : Delivery) (l : Locals) :
  loop_body trigger_normalized reply_text d l =
  match me_outcome d with
  | Returns m =>
      let l' := {| me := Some m; body_normalized := body_normalized l |} in
      if author_is (comment d) m
      then {| locals_after := l'; events := [user_me_call]; result := Returns tt |}
      else after [user_me_call] (check_trigger trigger_normalized reply_text d l')
  | Raises e =>
      if is_Exception e
      then after [user_me_call] (check_trigger trigger_normalized reply_text d l)
      else {| locals_after := l; events := [user_me_call]; result := Raises e |}
  end.
Proof.
  unfold loop_body, check_self, try_except, bind, user_me, call; simpl.
  destruct (me_outcome d) as [m|e]; simpl.
  - destruct (author_is (comment d) m); reflexivity.
  - destruct (is_Exception e); reflexivity.
Qed.

Lemma for_each_cons (f : Delivery -> M unit) (d : Delivery) (rest : list Delivery) (l : Locals) :
  for_each f (d :: rest) l =
  match result (f d l) with
  | Returns _ => after (events (f d l)) (for_each f rest (locals_after (f d l)))
  | Raises e => {| locals_after := locals_after (f d l); events := events (f d l);
                   result := Raises e |}
  end.
Proof. reflexivity. Qed.

End Iteration.

Lemma reply_attempts_epilogue (d : Delivery) : filter is_reply (reply_epilogue d) = [].
Proof.
  unfold reply_epilogue. destruct (reply_outcome d) as [u|e]; [reflexivity|].
  destruct (is_Exception e); reflexivity.
Qed.

(** The reply attempts of one iteration: one, with the configured text, on
    a comment that is not the bot's own and whose body matches; none otherwise. *)
Lemma loop_body_reply_attempts (tn rt : str) (d : Delivery) (l : Locals) :
  reply_attempts (events (loop_body tn rt d l)) =
  if self_authored d || identity_lookup_interrupted d then []
  else if str_eqb (normalize (comment_body (comment d))) tn
       then [reply_call (comment_id (comment d)) rt]
       else [].
Proof.
  rewrite loop_body_run. unfold self_authored, identity_lookup_interrupted.
  destruct (me_outcome d) as [m|e]; cbv zeta.
  - destruct (author_is (comment d) m); [reflexivity|].
    rewrite check_trigger_run; cbv zeta.
    destruct (str_eqb _ tn); [|reflexivity].
    unfold reply_attempts; cbn. now rewrite (reply_attempts_epilogue d).
  - destruct (is_Exception e); [|reflexivity].
    rewrite check_trigger_run; cbv zeta.
    destruct (str_eqb _ tn); [|reflexivity].
    unfold reply_attempts; cbn. now rewrite (reply_attempts_epilogue d).
Qed.

Lemma monitor_comments_run (reddit : Reddit) (subreddits : list str)
    (trigger_phrase reply_text : str) (l : Locals) :
  monitor_comments reddit subreddits trigger_phrase reply_text l =
  let path := join (py "+") subreddits in
  let feed := subreddit_feed reddit path in
  after [subreddit_call path; start_log path trigger_phrase; stream_comments_call true]
    ((for_each (loop_body (normalize trigger_phrase) reply_text) (arriving feed) ;;
      stream_end feed) l).
Proof.
  unfold monitor_comments, bind, reddit_subreddit, stream_comments, logging_info, emit, call;
    cbn [result events locals_after].
  cbv zeta.
  destruct (result (for_each _ _ l)); reflexivity.
Qed.

(** An iteration ends normally unless the platform interrupts it. *)
Lemma loop_body_result (tn rt : str) (d : Delivery) (l : Locals) :
  uninterrupted d = true -> result (loop_body tn rt d l) = Returns tt.
Proof.
  unfold uninterrupted, identity_lookup_interrupted, reply_interrupted.
  rewrite loop_body_run. intros H.
  destruct (me_outcome d) as [m|e]; cbv zeta.
  - destruct (author_is (comment d) m); [reflexivity|].
    rewrite check_trigger_run; cbv zeta.
    destruct (str_eqb _ tn); [|reflexivity].
    cbn. unfold reply_result.
    destruct (reply_outcome d) as [u|e]; [reflexivity|].
    simpl in H. now destruct (is_Exception e).
  - destruct (is_Exception e); [|discriminate].
    rewrite check_trigger_run; cbv zeta.
    destruct (str_eqb _ tn); [|reflexivity].
    cbn. unfold reply_result.
    destruct (reply_outcome d) as [u|e']; [reflexivity|].
    simpl in H. now destruct (is_Exception e').
Qed.

(** The loop runs to the end of the stream unless the platform interrupts it. *)
Lemma for_each_result (tn rt : str) (ds : list Delivery) (l : Locals) :
  forallb uninterrupted ds = true -> result (for_each (loop_body tn rt) ds l) = Returns tt.
Proof.
  revert l; induction ds as [|d ds IH]; intros l H; [reflexivity|].
  simpl in H. apply andb_true_iff in H as [Hd Hds].
  rewrite for_each_cons, (loop_body_result tn rt d l Hd).
  cbn [result after]. now apply IH.
Qed.

(** The reply attempts of the loop, delivery by delivery. *)
Lemma for_each_reply_attempts (tp rt : str) (ds : list Delivery) (l : Locals) :
  forallb uninterrupted ds = true ->
  reply_attempts (events (for_each (loop_body (normalize tp) rt) ds l))
  = flat_map (expected_replies tp rt) ds.
Proof.
  revert l; induction ds as [|d ds IH]; intros l H; [reflexivity|].
  simpl in H. apply andb_true_iff in H as [Hd Hds].
  rewrite for_each_cons, (loop_body_result _ rt d l Hd).
  cbn [events after flat_map]. unfold reply_attempts.
  rewrite filter_app. fold (reply_attempts (events (loop_body (normalize tp) rt d l))).
  rewrite loop_body_reply_attempts.
  fold (reply_attempts (events (for_each (loop_body (normalize tp) rt) ds
                                  (locals_after (loop_body (normalize tp) rt d l))))).
  rewrite (IH _ Hds). f_equal.
  unfold uninterrupted in Hd. apply andb_true_iff in Hd as [Hd _].
  apply negb_true_iff in Hd. rewrite Hd, orb_false_r.
  reflexivity.
Qed.

(** C1: for every comment that the loop processes and does not skip as
    self-authored, a reply is attempted if and only if the body, trimmed
    and lower-cased, equals the trigger phrase, trimmed and lower-cased;
    the attempt is the only one and carries the configured reply text.
    The body "New response just dropped!" does not match the trigger
    "New response just dropped": no reply is attempted, whoever wrote it
    and whatever the platform answers.  Over a whole run that the platform
    does not interrupt, the reply attempts of [monitor_comments] are, in
    order of arrival, one per comment that is not the bot's own and whose
    body matches. *)
Theorem reply_iff_trigger_match :
  (forall (trigger_phrase reply_text : str) (d : Delivery) (l : Locals),
      self_authored d = false ->
      identity_lookup_interrupted d = false ->
      let evs := events (loop_body (normalize trigger_phrase) reply_text d l) in
      (In (reply_call (comment_id (comment d)) reply_text) evs
       <-> normalize (comment_body (comment d)) = normalize trigger_phrase)
      /\ reply_attempts evs =
         if trigger_match (comment_body (comment d)) trigger_phrase
         then [reply_call (comment_id (comment d)) reply_text] else [])
  /\ (forall (reply_text : str) (who : option Redditor) (ident : string)
             (m : outcome Redditor) (r : outcome unit) (l : Locals),
         trigger_match (py "New response just dropped!") (py "New response just dropped") = false
         /\ reply_attempts
              (events (loop_body (normalize (py "New response just dropped")) reply_text
                         (delivered (comment_by who ident "New response just dropped!") m r) l))
            = [])
  /\ (forall (reddit : Reddit) (subreddits : list str) (trigger_phrase reply_text : str)
             (l : Locals),
         let comments := arriving (subreddit_feed reddit (join (py "+") subreddits)) in
         forallb uninterrupted comments = true ->
         reply_attempts (events (monitor_comments reddit subreddits trigger_phrase reply_text l))
         = flat_map (expected_replies trigger_phrase reply_text) comments).
Proof.
  split; [|split].
  - intros tp rt d l Hself Hint evs.
    assert (Hatt := loop_body_reply_attempts (normalize tp) rt d l).
    rewrite Hself, Hint in Hatt; simpl in Hatt. fold evs in Hatt.
    split; [|exact Hatt].
    rewrite <- str_eqb_eq.
    destruct (str_eqb _ (normalize tp)).
    + split; [reflexivity|]. intros _.
      apply (proj1 (filter_In is_reply _ evs)). fold (reply_attempts evs).
      rewrite Hatt. now left.
    + split; [|discriminate]. intros Hin.
      assert (Hin' : In (reply_call (comment_id (comment d)) rt) (reply_attempts evs))
        by (apply filter_In; split; [exact Hin|reflexivity]).
      rewrite Hatt in Hin'. destruct Hin'.
  - intros rt who ident m r l. split; [reflexivity|].
    rewrite loop_body_reply_attempts.
    destruct (self_authored _ || identity_lookup_interrupted _); reflexivity.
  - intros reddit subs tp rt l comments Hun.
    rewrite monitor_comments_run; cbv zeta. fold comments.
    unfold bind. rewrite (for_each_result _ rt comments l Hun).
    cbn [events after]. unfold reply_attempts. rewrite !filter_app.
    fold (reply_attempts (events (for_each (loop_body (normalize tp) rt) comments l))).
    rewrite (for_each_reply_attempts tp rt comments l Hun).
    unfold stream_end. destruct (ending _); cbn; now rewrite app_nil_r.
Qed.

(** C1 at a comment by another user whose body is the trigger phrase in
    capitals: the reply is attempted. *)
Lemma reply_iff_trigger_match_witness :
  reply_attempts
    (events (loop_body (normalize TRIGGER_PHRASE) REPLY_TEXT
               (delivered (comment_by (Some alice) "c1" " NEW RESPONSE JUST DROPPED ")
                          (Returns bot) (Returns tt)) unbound))
  = [reply_call (py "c1") REPLY_TEXT].
Proof.
  exact (proj2 (proj1 reply_iff_trigger_match TRIGGER_PHRASE REPLY_TEXT
                  (delivered (comment_by (Some alice) "c1" " NEW RESPONSE JUST DROPPED ")
                             (Returns bot) (Returns tt)) unbound eq_refl eq_refl)).
Defined.

(** ** The self-author check *)

(** C3: in every iteration, a comment whose author is the identity that
    [reddit.user.me()] resolved is not replied to, whatever its body, and
    the loop goes on with the next comment; when resolving the identity
    fails, the comment is not taken as the bot's own, the trigger check
    runs on it, and the loop goes on. *)
Theorem own_comment_never_replied :
  (forall (tn rt : str) (d : Delivery) (rest : list Delivery) (l : Locals),
      self_authored d = true ->
      events (loop_body tn rt d l) = [user_me_call]
      /\ reply_attempts (events (loop_body tn rt d l)) = []
      /\ for_each (loop_body tn rt) (d :: rest) l =
         after [user_me_call]
           (for_each (loop_body tn rt) rest (locals_after (loop_body tn rt d l))))
  /\ (forall (tn rt : str) (d : Delivery) (rest : list Delivery) (l : Locals),
         identity_lookup_fails d = true ->
         self_authored d = false
         /\ loop_body tn rt d l = after [user_me_call] (check_trigger tn rt d l)
         /\ for_each (loop_body tn rt) (d :: rest) l =
            after [user_me_call]
              ((check_trigger tn rt d ;; for_each (loop_body tn rt) rest) l)).
Proof.
  split; intros tn rt d rest l H.
  - rewrite for_each_cons, loop_body_run.
    unfold self_authored in H.
    destruct (me_outcome d) as [m|e]; [|discriminate].
    cbv zeta. rewrite H. repeat split.
  - unfold identity_lookup_fails in H. unfold self_authored.
    rewrite for_each_cons, loop_body_run.
    destruct (me_outcome d) as [m|e]; [discriminate|].
    rewrite H. repeat split.
    unfold bind.
    destruct (check_trigger tn rt d l) as [l' evs [[]|e']]; reflexivity.
Qed.

(** C3 on a matching comment written by the bot, followed by a matching
    comment written by somebody else while the identity lookup fails. *)
Lemma own_comment_never_replied_witness :
  reply_attempts
    (events (loop_body (normalize TRIGGER_PHRASE) REPLY_TEXT
               (delivered (comment_by (Some bot) "c3" "New response just dropped")
                          (Returns bot) (Returns tt)) unbound)) = []
  /\ loop_body (normalize TRIGGER_PHRASE) REPLY_TEXT
       (delivered (comment_by (Some bot) "c4" "New response just dropped")
                  (Raises network_down) (Returns tt)) unbound
     = after [user_me_call]
         (check_trigger (normalize TRIGGER_PHRASE) REPLY_TEXT
            (delivered (comment_by (Some bot) "c4" "New response just dropped")
                       (Raises network_down) (Returns tt)) unbound).
Proof.
  split.
  - exact (proj1 (proj2 (proj1 own_comment_never_replied (normalize TRIGGER_PHRASE) REPLY_TEXT
                           (delivered (comment_by (Some bot) "c3" "New response just dropped")
                                      (Returns bot) (Returns tt)) [] unbound eq_refl))).
  - exact (proj1 (proj2 (proj2 own_comment_never_replied (normalize TRIGGER_PHRASE) REPLY_TEXT
                           (delivered (comment_by (Some bot) "c4" "New response just dropped")
                                      (Raises network_down) (Returns tt)) [] unbound eq_refl))).
Defined.

(** C10: a comment whose author is absent is not taken as the bot's own,
    and the missing author raises nothing: the comparison of names is not
    evaluated, and the iteration is the identity lookup followed by the
    trigger check, as for any comment of another user.  Only an interrupt
    of the lookup itself leaves the iteration before the trigger check. *)
Theorem absent_author_proceeds_to_trigger_check :
  forall (tn rt : str) (d : Delivery) (l : Locals),
    comment_author (comment d) = None ->
    self_authored d = false
    /\ (forall m : Redditor, author_is (comment d) m = false)
    /\ loop_body tn rt d l =
       match me_outcome d with
       | Returns m =>
           after [user_me_call]
             (check_trigger tn rt d {| me := Some m; body_normalized := body_normalized l |})
       | Raises e =>
           if is_Exception e
           then after [user_me_call] (check_trigger tn rt d l)
           else {| locals_after := l; events := [user_me_call]; result := Raises e |}
       end.
Proof.
  intros tn rt d l Hnone.
  assert (Hno : forall m, author_is (comment d) m = false)
    by (intros m; unfold author_is; now rewrite Hnone).
  repeat split; [|exact Hno|].
  - unfold self_authored. destruct (me_outcome d); [apply Hno|reflexivity].
  - rewrite loop_body_run. destruct (me_outcome d) as [m|e]; [|reflexivity].
    cbv zeta. now rewrite Hno.
Qed.

(** C10 on a matching comment without author: the reply is attempted. *)
Lemma absent_author_proceeds_to_trigger_check_witness :
  loop_body (normalize TRIGGER_PHRASE) REPLY_TEXT
    (delivered (comment_by None "c5" "New response just dropped") (Returns bot) (Returns tt))
    unbound
  = after [user_me_call]
      (check_trigger (normalize TRIGGER_PHRASE) REPLY_TEXT
         (delivered (comment_by None "c5" "New response just dropped") (Returns bot) (Returns tt))
         {| me := Some bot; body_normalized := None |}).
Proof.
  exact (proj2 (proj2 (absent_author_proceeds_to_trigger_check (normalize TRIGGER_PHRASE) REPLY_TEXT
                  (delivered (comment_by None "c5" "New response just dropped")
                             (Returns bot) (Returns tt)) unbound eq_refl))).
Defined.

(** ** The reply attempt and what follows it *)

(** The whole trace of an iteration that attempts a reply. *)
Lemma attempt_trace (tn rt : str) (d : Delivery) (l : Locals) :
  reply_attempts (events (loop_body tn rt d l)) <> [] ->
  loop_body tn rt d l =
  {| locals_after :=
       {| me := match me_outcome d with Returns m => Some m | Raises _ => me l end;
          body_normalized := Some (normalize (comment_body (comment d))) |};
     events := user_me_call :: action_log (comment d)
               :: reply_call (comment_id (comment d)) rt :: reply_epilogue d;
     result := reply_result d |}.
Proof.
  rewrite loop_body_reply_attempts, loop_body_run.
  unfold self_authored, identity_lookup_interrupted.
  destruct (me_outcome d) as [m|e]; cbv zeta.
  - destruct (author_is (comment d) m); [intros H; now elim H|].
    rewrite check_trigger_run; cbv zeta.
    destruct (str_eqb _ tn); [reflexivity|intros H; now elim H].
  - destruct (is_Exception e); [|intros H; now elim H].
    rewrite check_trigger_run; cbv zeta.
    destruct (str_eqb _ tn); [reflexivity|intros H; now elim H].
Qed.

(** C5: when the reply attempt on a comment raises an error (any instance
    of [Exception]: permission denied, deleted comment, rate limit,
    network failure), the iteration logs at error level the comment
    identifier and the cause, sleeps 5, and ends normally: the error does
    not leave the loop, which goes on with the next comment.  The reply is
    attempted on every comment that is not skipped and whose body matches.
    However many replies fail, [monitor_comments] ends only as the stream
    ends. *)
Theorem reply_error_logged_and_survived :
  (forall (trigger_phrase rt : str) (d : Delivery) (e : PyExc) (rest : list Delivery)
          (l : Locals),
      self_authored d = false ->
      identity_lookup_interrupted d = false ->
      trigger_match (comment_body (comment d)) trigger_phrase = true ->
      reply_outcome d = Raises e ->
      is_Exception e = true ->
      events (loop_body (normalize trigger_phrase) rt d l) =
        [ user_me_call;
          action_log (comment d);
          reply_call (comment_id (comment d)) rt;
          logging_call ERROR (py "Failed to reply to comment %s: %s")
            [comment_id (comment d); exc_str e];
          sleep_call 5 ]
      /\ result (loop_body (normalize trigger_phrase) rt d l) = Returns tt
      /\ for_each (loop_body (normalize trigger_phrase) rt) (d :: rest) l =
         after (events (loop_body (normalize trigger_phrase) rt d l))
           (for_each (loop_body (normalize trigger_phrase) rt) rest
              (locals_after (loop_body (normalize trigger_phrase) rt d l))))
  /\ (forall (reddit : Reddit) (subreddits : list str) (trigger_phrase reply_text : str)
             (l : Locals),
         let feed := subreddit_feed reddit (join (py "+") subreddits) in
         forallb uninterrupted (arriving feed) = true ->
         result (monitor_comments reddit subreddits trigger_phrase reply_text l)
         = match ending feed with
           | None => Returns tt
           | Some e => Raises e
           end).
Proof.
  split.
  - intros tp rt d e rest l Hself Hint Hmatch Hrep Hexc.
    assert (Hatt : reply_attempts (events (loop_body (normalize tp) rt d l)) <> []).
    { rewrite loop_body_reply_attempts, Hself, Hint.
      unfold trigger_match in Hmatch. rewrite Hmatch. discriminate. }
    rewrite for_each_cons, (attempt_trace _ _ _ _ Hatt); simpl.
    unfold reply_epilogue, reply_result. rewrite Hrep, Hexc.
    repeat split.
  - intros reddit subs tp rt l feed Hun.
    rewrite monitor_comments_run; cbv zeta. fold feed.
    unfold bind. rewrite (for_each_result _ rt (arriving feed) l Hun).
    cbn [result after]. unfold stream_end. destruct (ending feed); reflexivity.
Qed.

(** C5 at a matching comment whose reply is refused with a 403, followed
    by a second comment: the error is logged with the identifier and the
    cause, 5 is slept, and the loop reaches the second comment. *)
Lemma reply_error_logged_and_survived_witness :
  events (loop_body (normalize TRIGGER_PHRASE) REPLY_TEXT
            (delivered (comment_by (Some alice) "c6" "new response just dropped")
                       (Returns bot) (Raises permission_denied)) unbound)
  = [ user_me_call;
      logging_call INFO (py "Replying to comment id=%s in r/%s") [py "c6"; py "chess"];
      reply_call (py "c6") REPLY_TEXT;
      logging_call ERROR (py "Failed to reply to comment %s: %s")
        [py "c6"; py "received 403 HTTP response"];
      sleep_call 5 ]
  /\ result (loop_body (normalize TRIGGER_PHRASE) REPLY_TEXT
               (delivered (comment_by (Some alice) "c6" "new response just dropped")
                          (Returns bot) (Raises permission_denied)) unbound)
     = Returns tt
  /\ events (for_each (loop_body (normalize TRIGGER_PHRASE) REPLY_TEXT)
               [ delivered (comment_by (Some alice) "c6" "new response just dropped")
                           (Returns bot) (Raises permission_denied);
                 delivered (comment_by (Some alice) "c7" "hello") (Returns bot) (Returns tt) ]
               unbound)
     = [ user_me_call;
         logging_call INFO (py "Replying to comment id=%s in r/%s") [py "c6"; py "chess"];
         reply_call (py "c6") REPLY_TEXT;
         logging_call ERROR (py "Failed to reply to comment %s: %s")
           [py "c6"; py "received 403 HTTP response"];
         sleep_call 5;
         user_me_call ].
Proof.
  destruct (proj1 reply_error_logged_and_survived TRIGGER_PHRASE REPLY_TEXT
              (delivered (comment_by (Some alice) "c6" "new response just dropped")
                         (Returns bot) (Raises permission_denied))
              permission_denied
              [delivered (comment_by (Some alice) "c7" "hello") (Returns bot) (Returns tt)]
              unbound eq_refl eq_refl eq_refl eq_refl eq_refl)
    as (Hev & Hres & Hloop).
  split; [exact Hev|]. split; [exact Hres|].
  rewrite Hloop, Hev. reflexivity.
Defined.

(** C8 as stated fails: on a matching comment whose reply is refused, the
    action log with the comment identifier and the channel is in the trace
    all the same, ahead of the reply attempt and of the error log. *)
Lemma action_log_on_failure_counterexample :
  reply_outcome (delivered (comment_by (Some alice) "c6" "New response just dropped")
                           (Returns bot) (Raises permission_denied))
  = Raises permission_denied
  /\ events (loop_body (normalize TRIGGER_PHRASE) REPLY_TEXT
               (delivered (comment_by (Some alice) "c6" "New response just dropped")
                          (Returns bot) (Raises permission_denied)) unbound)
     = [ user_me_call;
         logging_call INFO (py "Replying to comment id=%s in r/%s") [py "c6"; py "chess"];
         reply_call (py "c6") REPLY_TEXT;
         logging_call ERROR (py "Failed to reply to comment %s: %s")
           [py "c6"; py "received 403 HTTP response"];
         sleep_call 5 ].
Proof. split; reflexivity. Qed.

(** C8, as amended: for every matching comment that is not skipped, the
    action log carrying the comment identifier and the channel is emitted
    before the reply attempt, whether the attempt then succeeds or fails;
    after a successful attempt only the sleep of 2 follows; the error log
    is emitted exactly when the attempt raises an error, and the sleep of
    5 follows it. *)
Theorem action_log_precedes_attempt :
  forall (trigger_phrase rt : str) (d : Delivery) (l : Locals),
    self_authored d = false ->
    identity_lookup_interrupted d = false ->
    trigger_match (comment_body (comment d)) trigger_phrase = true ->
    events (loop_body (normalize trigger_phrase) rt d l) =
      user_me_call
      :: logging_call INFO (py "Replying to comment id=%s in r/%s")
           [comment_id (comment d); display_name (comment_subreddit (comment d))]
      :: reply_call (comment_id (comment d)) rt
      :: match reply_outcome d with
         | Returns _ => [sleep_call 2]
         | Raises e =>
             if is_Exception e
             then [logging_call ERROR (py "Failed to reply to comment %s: %s")
                     [comment_id (comment d); exc_str e];
                   sleep_call 5]
             else []
         end.
Proof.
  intros tp rt d l Hself Hint Hmatch.
  rewrite attempt_trace; [reflexivity|].
  rewrite loop_body_reply_attempts, Hself, Hint.
  unfold trigger_match in Hmatch. rewrite Hmatch. discriminate.
Qed.

(** The amended C8 on a matching comment whose reply succeeds. *)
Lemma action_log_precedes_attempt_witness :
  events (loop_body (normalize TRIGGER_PHRASE) REPLY_TEXT
            (delivered (comment_by (Some alice) "c8" "New response just dropped")
                       (Returns bot) (Returns tt)) unbound)
  = [ user_me_call;
      logging_call INFO (py "Replying to comment id=%s in r/%s") [py "c8"; py "chess"];
      reply_call (py "c8") REPLY_TEXT;
      sleep_call 2 ].
Proof.
  exact (action_log_precedes_attempt TRIGGER_PHRASE REPLY_TEXT
           (delivered (comment_by (Some alice) "c8" "New response just dropped")
                      (Returns bot) (Returns tt)) unbound eq_refl eq_refl eq_refl).
Defined.

(** C4: the delay taken after a failed reply attempt is 5, the delay taken
    after a successful one is 2, each the only sleep of its iteration, and
    the first is strictly greater than the second. *)
Theorem failure_delay_exceeds_success_delay :
  forall (tn rt : str) (d_ok d_fail : Delivery) (e : PyExc) (l_ok l_fail : Locals),
    reply_attempts (events (loop_body tn rt d_ok l_ok)) <> [] ->
    reply_outcome d_ok = Returns tt ->
    reply_attempts (events (loop_body tn rt d_fail l_fail)) <> [] ->
    reply_outcome d_fail = Raises e ->
    is_Exception e = true ->
    sleeps (events (loop_body tn rt d_ok l_ok)) = [2%Z]
    /\ sleeps (events (loop_body tn rt d_fail l_fail)) = [5%Z]
    /\ (fold_right Z.add 0 (sleeps (events (loop_body tn rt d_ok l_ok)))
        < fold_right Z.add 0 (sleeps (events (loop_body tn rt d_fail l_fail))))%Z.
Proof.
  intros tn rt d_ok d_fail e l_ok l_fail Hok Rok Hfail Rfail Hexc.
  rewrite (attempt_trace _ _ _ _ Hok), (attempt_trace _ _ _ _ Hfail); simpl.
  unfold reply_epilogue. rewrite Rok, Rfail, Hexc; simpl.
  repeat split.
Qed.

(** C4 on one matching comment, answered once and refused once. *)
Lemma failure_delay_exceeds_success_delay_witness :
  sleeps (events (loop_body (normalize TRIGGER_PHRASE) REPLY_TEXT
                    (delivered (comment_by (Some alice) "c9" "New response just dropped")
                               (Returns bot) (Returns tt)) unbound)) = [2%Z]
  /\ sleeps (events (loop_body (normalize TRIGGER_PHRASE) REPLY_TEXT
                       (delivered (comment_by (Some alice) "c9" "New response just dropped")
                                  (Returns bot) (Raises network_down)) unbound)) = [5%Z].
Proof.
  refine (let H := failure_delay_exceeds_success_delay (normalize TRIGGER_PHRASE) REPLY_TEXT
            (delivered (comment_by (Some alice) "c9" "New response just dropped")
                       (Returns bot) (Returns tt))
            (delivered (comment_by (Some alice) "c9" "New response just dropped")
                       (Returns bot) (Raises network_down))
            network_down unbound unbound _ eq_refl _ eq_refl eq_refl in
          conj (proj1 H) (proj1 (proj2 H)));
    vm_compute; discriminate.
Defined.

(** C9: the loop keeps no record of the comments it has seen.  Delivering
    the same comment again, with the same answer to the identity lookup,
    from the local state that the first delivery left, attempts the same
    replies as the first delivery, whatever the platform answered to the
    reply; with the same answer to the reply too, the second iteration
    makes the same calls, ends the same way and leaves the local state as
    it found it; and two consecutive deliveries make the calls of one
    delivery twice. *)
Theorem redelivery_same_outcome :
  (forall (tn rt : str) (c : Comment) (m : outcome Redditor) (r1 r2 : outcome unit) (l : Locals),
      let first := loop_body tn rt (delivered c m r1) l in
      let second := loop_body tn rt (delivered c m r2) (locals_after first) in
      reply_attempts (events second) = reply_attempts (events first))
  /\ (forall (tn rt : str) (d : Delivery) (l : Locals),
         let first := loop_body tn rt d l in
         let second := loop_body tn rt d (locals_after first) in
         events second = events first
         /\ result second = result first
         /\ locals_after second = locals_after first
         /\ events (for_each (loop_body tn rt) [d; d] l) =
            match result first with
            | Returns _ => events first ++ events first
            | Raises _ => events first
            end).
Proof.
  split.
  - intros tn rt c m r1 r2 l first second. unfold first, second.
    now rewrite !loop_body_reply_attempts.
  - intros tn rt d l first second.
    assert (H : events second = events first /\ result second = result first
                /\ locals_after second = locals_after first).
    { unfold second, first. rewrite !loop_body_run.
      destruct (me_outcome d) as [m|e]; cbv zeta.
      - destruct (author_is (comment d) m); [repeat split|].
        rewrite !check_trigger_run; cbv zeta.
        destruct (str_eqb _ tn); repeat split.
      - destruct (is_Exception e); [|repeat split].
        rewrite !check_trigger_run; cbv zeta.
        destruct (str_eqb _ tn); repeat split. }
    destruct H as (Hev & Hres & Hloc). repeat split; auto.
    rewrite for_each_cons.
    change (loop_body tn rt d l) with first.
    destruct (result first) as [u|e] eqn:Hfirst; [|reflexivity].
    cbn [events after]. f_equal.
    rewrite for_each_cons.
    change (loop_body tn rt d (locals_after first)) with second.
    rewrite Hres.
    cbn [events after for_each ret]. now rewrite Hev, app_nil_r.
Qed.

(** ** The subscription *)

Lemma stream_flags_app (u v : list Event) :
  stream_flags (u ++ v) = stream_flags u ++ stream_flags v.
Proof.
  induction u as [|ev u IH]; simpl; [reflexivity|].
  destruct ev; simpl; now rewrite IH.
Qed.

Lemma stream_flags_epilogue (d : Delivery) : stream_flags (reply_epilogue d) = [].
Proof.
  unfold reply_epilogue. destruct (reply_outcome d) as [u|e]; [reflexivity|].
  destruct (is_Exception e); reflexivity.
Qed.

Lemma loop_body_stream_flags (tn rt : str) (d : Delivery) (l : Locals) :
  stream_flags (events (loop_body tn rt d l)) = [].
Proof.
  rewrite loop_body_run.
  destruct (me_outcome d) as [m|e]; cbv zeta.
  - destruct (author_is (comment d) m); [reflexivity|].
    rewrite check_trigger_run; cbv zeta.
    destruct (str_eqb _ tn); [|reflexivity].
    cbn. apply stream_flags_epilogue.
  - destruct (is_Exception e); [|reflexivity].
    rewrite check_trigger_run; cbv zeta.
    destruct (str_eqb _ tn); [|reflexivity].
    cbn. apply stream_flags_epilogue.
Qed.

Lemma for_each_stream_flags (tn rt : str) (ds : list Delivery) (l : Locals) :
  stream_flags (events (for_each (loop_body tn rt) ds l)) = [].
Proof.
  revert l; induction ds as [|d ds IH]; intros l; [reflexivity|].
  rewrite for_each_cons.
  destruct (result (loop_body tn rt d l)); cbn [events after].
  - now rewrite stream_flags_app, loop_body_stream_flags, IH.
  - apply loop_body_stream_flags.
Qed.

(** C6: [monitor_comments] joins the channel names with "+" into one
    subscription target, asks the client for that target first, and reads
    its comments from there: ["test"; "learnpython"] gives
    "test+learnpython", and the one-element list ["all"], which is what
    [main] passes, gives "all". *)
Theorem subreddit_path_joined_with_plus :
  (forall (reddit : Reddit) (subreddits : list str) (trigger_phrase reply_text : str) (l : Locals),
      monitor_comments reddit subreddits trigger_phrase reply_text l =
      let path := join (py "+") subreddits in
      let feed := subreddit_feed reddit path in
      after [subreddit_call path; start_log path trigger_phrase; stream_comments_call true]
        ((for_each (loop_body (normalize trigger_phrase) reply_text) (arriving feed) ;;
          stream_end feed) l))
  /\ (forall (p q : str) (rest : list str),
         join (py "+") [p] = p
         /\ join (py "+") (p :: q :: rest) = p ++ py "+" ++ join (py "+") (q :: rest))
  /\ join (py "+") [py "test"; py "learnpython"] = py "test+learnpython"
  /\ join (py "+") [py "all"] = py "all"
  /\ SUBREDDITS = [py "all"]
  /\ (forall (reddit : Reddit) (l : Locals),
         hd_error (events (main reddit l)) = Some (subreddit_call (py "all"))).
Proof.
  split; [exact monitor_comments_run|].
  repeat split.
  intros reddit l. unfold main, bind.
  rewrite monitor_comments_run; cbv zeta.
  destruct (result (after _ _)); reflexivity.
Qed.

(** C7: [monitor_comments] opens the comment stream once, with
    [skip_existing] true; the loop runs over the comments that arrive
    after the subscription, and no comment that existed before it reaches
    the loop: the run is the same on a platform without those comments. *)
Theorem stream_opened_skip_existing :
  forall (reddit : Reddit) (subreddits : list str) (trigger_phrase reply_text : str) (l : Locals),
    stream_flags (events (monitor_comments reddit subreddits trigger_phrase reply_text l)) = [true]
    /\ result (stream_comments (subreddit_feed reddit (join (py "+") subreddits)) true l)
       = Returns (arriving (subreddit_feed reddit (join (py "+") subreddits)))
    /\ monitor_comments reddit subreddits trigger_phrase reply_text l =
       after [ subreddit_call (join (py "+") subreddits);
               start_log (join (py "+") subreddits) trigger_phrase;
               stream_comments_call true ]
         ((for_each (loop_body (normalize trigger_phrase) reply_text)
             (arriving (subreddit_feed reddit (join (py "+") subreddits))) ;;
           stream_end (subreddit_feed reddit (join (py "+") subreddits))) l)
    /\ monitor_comments reddit subreddits trigger_phrase reply_text l =
       monitor_comments (forget_existing reddit) subreddits trigger_phrase reply_text l.
Proof.
  intros reddit subs tp rt l. split; [|split; [reflexivity|split]].
  - rewrite monitor_comments_run; cbv zeta. cbn [events after].
    rewrite stream_flags_app. unfold start_log. cbn [stream_flags app]. f_equal.
    unfold bind.
    destruct (result (for_each _ _ l)) eqn:Hres; cbn [events after].
    + rewrite stream_flags_app, for_each_stream_flags.
      unfold stream_end. destruct (ending _); reflexivity.
    + apply for_each_stream_flags.
  - apply monitor_comments_run.
  - now rewrite !monitor_comments_run.
Qed.

(** The flag matters: on a platform whose only comment predates the
    subscription and matches, a stream opened without it yields that
    comment, while [monitor_comments] attempts no reply. *)
Example skip_existing_matters :
  result (stream_comments (subreddit_feed backlog_only (py "all")) false unbound)
  = Returns [delivered (comment_by (Some alice) "c0" "New response just dropped")
                       (Returns bot) (Returns tt)]
  /\ reply_attempts (events (main backlog_only unbound)) = [].
Proof. split; reflexivity. Qed.

(** ** The scenarios of the specification, run through [main]'s configuration *)

Example scenario_exact_body :
  events (loop_body (normalize TRIGGER_PHRASE) REPLY_TEXT
            (delivered (comment_by (Some alice) "s1" "New response just dropped")
                       (Returns bot) (Returns tt)) unbound)
  = [ user_me_call;
      logging_call INFO (py "Replying to comment id=%s in r/%s") [py "s1"; py "chess"];
      reply_call (py "s1") (py "Actual Zombie");
      sleep_call 2 ].
Proof. reflexivity. Qed.

Example scenario_padded_capitals :
  normalize (py "  NEW RESPONSE JUST DROPPED  ") = py "new response just dropped"
  /\ trigger_match (py "  NEW RESPONSE JUST DROPPED  ") TRIGGER_PHRASE = true.
Proof. split; reflexivity. Qed.

Example scenario_trailing_punctuation :
  trigger_match (py "New response just dropped!") TRIGGER_PHRASE = false.
Proof. reflexivity. Qed.

Example scenario_own_comment :
  events (loop_body (normalize TRIGGER_PHRASE) REPLY_TEXT
            (delivered (comment_by (Some bot) "s4" "New response just dropped")
                       (Returns bot) (Returns tt)) unbound)
  = [user_me_call].
Proof. reflexivity. Qed.

Example scenario_interrupt_leaves_the_loop :
  result (for_each (loop_body (normalize TRIGGER_PHRASE) REPLY_TEXT)
            [ delivered (comment_by (Some alice) "s5" "New response just dropped")
                        (Returns bot) (Raises interrupt);
              delivered (comment_by (Some alice) "s6" "New response just dropped")
                        (Returns bot) (Returns tt) ] unbound)
  = Raises interrupt.
Proof. reflexivity. Qed.

(** * Further properties of the loop *)

(** ** What a run can and cannot do *)

(** The calls of [monitor_comments]: the three of the preamble, then those
    of the loop; reaching the end of the stream makes no call. *)
Lemma monitor_comments_events (reddit : Reddit) (subreddits : list str)
    (trigger_phrase reply_text : str) (l : Locals) :
  events (monitor_comments reddit subreddits trigger_phrase reply_text l) =
  [ subreddit_call (join (py "+") subreddits);
    start_log (join (py "+") subreddits) trigger_phrase;
    stream_comments_call true ]
  ++ events (for_each (loop_body (normalize trigger_phrase) reply_text)
               (arriving (subreddit_feed reddit (join (py "+") subreddits))) l).
Proof.
  rewrite monitor_comments_run; cbv zeta. cbn [events after]. f_equal.
  unfold bind. destruct (result (for_each _ _ l)); [|reflexivity].
  cbn [events after]. unfold stream_end.
  destruct (ending _); cbn; apply app_nil_r.
Qed.

(** What leaves an iteration is not an [Exception]. *)
Lemma loop_body_escape (tn rt : str) (d : Delivery) (l : Locals) (e : PyExc) :
  result (loop_body tn rt d l) = Raises e -> is_Exception e = false.
Proof.
  rewrite loop_body_run.
  destruct (me_outcome d) as [m|e0]; cbv zeta.
  - destruct (author_is (comment d) m); [discriminate|].
    rewrite check_trigger_run; cbv zeta.
    destruct (str_eqb _ tn); [|discriminate].
    cbn. unfold reply_result.
    destruct (reply_outcome d) as [u|e1]; [discriminate|].
    destruct (is_Exception e1) eqn:H1; [discriminate|]. congruence.
  - destruct (is_Exception e0) eqn:H0; [|cbn; congruence].
    rewrite check_trigger_run; cbv zeta.
    destruct (str_eqb _ tn); [|discriminate].
    cbn. unfold reply_result.
    destruct (reply_outcome d) as [u|e1]; [discriminate|].
    destruct (is_Exception e1) eqn:H1; [discriminate|]. congruence.
Qed.

Lemma for_each_escape (tn rt : str) (ds : list Delivery) (l : Locals) (e : PyExc) :
  result (for_each (loop_body tn rt) ds l) = Raises e -> is_Exception e = false.
Proof.
  revert l; induction ds as [|d ds IH]; intros l; [discriminate|].
  rewrite for_each_cons.
  destruct (result (loop_body tn rt d l)) as [u|e0] eqn:Hd.
  - cbn [result after]. apply IH.
  - cbn [result]. intros H; inversion H; subst e0.
    exact (loop_body_escape tn rt d l e Hd).
Qed.

Lemma for_each_replies_sound (tp rt : str) (ds : list Delivery) (l : Locals) (ev : Event) :
  In ev (reply_attempts (events (for_each (loop_body (normalize tp) rt) ds l))) ->
  exists d, In d ds
            /\ ev = reply_call (comment_id (comment d)) rt
            /\ self_authored d = false
            /\ identity_lookup_interrupted d = false
            /\ trigger_match (comment_body (comment d)) tp = true.
Proof.
  revert l; induction ds as [|d ds IH]; intros l; [intros []|].
  rewrite for_each_cons.
  assert (Hhere : In ev (reply_attempts (events (loop_body (normalize tp) rt d l))) ->
                  ev = reply_call (comment_id (comment d)) rt
                  /\ self_authored d = false
                  /\ identity_lookup_interrupted d = false
                  /\ trigger_match (comment_body (comment d)) tp = true).
  { rewrite loop_body_reply_attempts. unfold trigger_match.
    destruct (self_authored d); [intros []|].
    destruct (identity_lookup_interrupted d); [intros []|]. cbn [orb].
    destruct (str_eqb _ (normalize tp)); [|intros []].
    intros [<-|[]]. repeat split. }
  destruct (result (loop_body (normalize tp) rt d l)).
  - cbn [events after]. unfold reply_attempts. rewrite filter_app.
    intros H. apply in_app_or in H as [H|H].
    + exists d. split; [now left|]. now apply Hhere.
    + destruct (IH _ H) as (d' & Hin & Hrest). exists d'. split; [now right|exact Hrest].
  - cbn [events]. intros H. exists d. split; [now left|]. now apply Hhere.
Qed.

(** X1: whatever the platform does, interruptions included, every reply
    that a run of [monitor_comments] attempts carries the configured reply
    text unchanged and is on a comment of the stream whose body matches
    the trigger phrase and that the self-author check let through: either
    [reddit.user.me()] returned an identity that is not the author's (the
    names differ, or the author is absent), or it raised an [Exception],
    in which case the author was not checked. *)
Theorem replies_only_to_matching_comments :
  forall (reddit : Reddit) (subreddits : list str) (trigger_phrase reply_text : str)
         (l : Locals) (ev : Event),
    In ev (reply_attempts
             (events (monitor_comments reddit subreddits trigger_phrase reply_text l))) ->
    exists d : Delivery,
      In d (arriving (subreddit_feed reddit (join (py "+") subreddits)))
      /\ ev = reply_call (comment_id (comment d)) reply_text
      /\ trigger_match (comment_body (comment d)) trigger_phrase = true
      /\ match me_outcome d with
         | Returns m =>
             match comment_author (comment d) with
             | Some a => redditor_name a <> redditor_name m
             | None => True
             end
         | Raises e => is_Exception e = true
         end.
Proof.
  intros reddit subs tp rt l ev.
  rewrite monitor_comments_events. unfold reply_attempts at 1.
  rewrite filter_app. cbn [filter is_reply start_log app].
  intros H. destruct (for_each_replies_sound tp rt _ l ev H)
    as (d & Hin & Hev & Hself & Hint & Hmatch).
  exists d. repeat split; try assumption.
  unfold self_authored, author_is in Hself. unfold identity_lookup_interrupted in Hint.
  destruct (me_outcome d) as [m|e].
  - destruct (comment_author (comment d)) as [a|]; [|exact I].
    now apply str_eqb_neq.
  - now apply negb_false_iff.
Qed.

(** X2: no error of the identity lookup or of a reply leaves
    [monitor_comments].  An instance of [Exception] that leaves it is the
    one that the stream raised when it ended, and then every comment that
    arrived was processed without interruption. *)
Theorem only_stream_errors_escape :
  forall (reddit : Reddit) (subreddits : list str) (trigger_phrase reply_text : str)
         (l : Locals) (e : PyExc),
    result (monitor_comments reddit subreddits trigger_phrase reply_text l) = Raises e ->
    is_Exception e = true ->
    ending (subreddit_feed reddit (join (py "+") subreddits)) = Some e
    /\ result (for_each (loop_body (normalize trigger_phrase) reply_text)
                 (arriving (subreddit_feed reddit (join (py "+") subreddits))) l)
       = Returns tt.
Proof.
  intros reddit subs tp rt l e.
  rewrite monitor_comments_run; cbv zeta. cbn [result after]. unfold bind.
  destruct (result (for_each _ _ l)) as [[]|e0] eqn:Hloop.
  - cbn [result after]. unfold stream_end.
    destruct (ending _) as [e1|]; cbn; [|discriminate].
    intros H _. inversion H. now split.
  - cbn [result]. intros H Hexc. inversion H; subst e0.
    rewrite (for_each_escape _ _ _ _ _ Hloop) in Hexc. discriminate.
Qed.

(** X1 on a platform where a reply is attempted on the comment "w1". *)
Lemma replies_only_to_matching_comments_witness :
  exists d : Delivery,
    In d (arriving (subreddit_feed busy_platform (join (py "+") SUBREDDITS)))
    /\ reply_call (py "w1") REPLY_TEXT = reply_call (comment_id (comment d)) REPLY_TEXT
    /\ trigger_match (comment_body (comment d)) TRIGGER_PHRASE = true
    /\ match me_outcome d with
       | Returns m =>
           match comment_author (comment d) with
           | Some a => redditor_name a <> redditor_name m
           | None => True
           end
       | Raises e => is_Exception e = true
       end.
Proof.
  apply (replies_only_to_matching_comments busy_platform SUBREDDITS TRIGGER_PHRASE REPLY_TEXT
           unbound (reply_call (py "w1") REPLY_TEXT)).
  vm_compute. left. reflexivity.
Defined.

(** X2 on a platform whose stream breaks with a network error after a
    refused reply and a failed identity lookup. *)
Lemma only_stream_errors_escape_witness :
  ending (subreddit_feed busy_platform (join (py "+") SUBREDDITS)) = Some network_down
  /\ result (for_each (loop_body (normalize TRIGGER_PHRASE) REPLY_TEXT)
               (arriving (subreddit_feed busy_platform (join (py "+") SUBREDDITS))) unbound)
     = Returns tt.
Proof.
  apply (only_stream_errors_escape busy_platform SUBREDDITS TRIGGER_PHRASE REPLY_TEXT
           unbound network_down); reflexivity.
Defined.

(** Once an iteration has raised, the rest of the stream is not looked at. *)
Lemma for_each_stops (f : Delivery -> M unit) (pre post : list Delivery) (l : Locals)
    (e : PyExc) :
  result (for_each f pre l) = Raises e ->
  for_each f (pre ++ post) l = for_each f pre l.
Proof.
  revert l; induction pre as [|d pre IH]; intros l; [discriminate|].
  cbn [app]. rewrite !for_each_cons.
  destruct (result (f d l)); [|reflexivity].
  cbn [result after]. intros H. now rewrite (IH _ H).
Qed.

(** X3: when the platform interrupts an iteration with something that is
    not an [Exception] (a keyboard interrupt during the identity lookup or
    during the reply), [monitor_comments] raises it, and no call is made
    for any later comment: the run is the same as on the stream cut after
    the interrupted comment, and it does not depend on how the stream
    would have ended. *)
Theorem interruption_stops_the_run :
  forall (tp rt : str) (pre post : list Delivery) (d : Delivery) (l : Locals) (e : PyExc),
    result (for_each (loop_body (normalize tp) rt) (pre ++ [d]) l) = Raises e ->
    forall (reddit : Reddit) (subreddits : list str),
      arriving (subreddit_feed reddit (join (py "+") subreddits)) = pre ++ d :: post ->
      is_Exception e = false
      /\ result (monitor_comments reddit subreddits tp rt l) = Raises e
      /\ events (monitor_comments reddit subreddits tp rt l) =
         [ subreddit_call (join (py "+") subreddits);
           start_log (join (py "+") subreddits) tp;
           stream_comments_call true ]
         ++ events (for_each (loop_body (normalize tp) rt) (pre ++ [d]) l).
Proof.
  intros tp rt pre post d l e Hcut reddit subs Harr.
  assert (Hall : for_each (loop_body (normalize tp) rt) (pre ++ d :: post) l
                 = for_each (loop_body (normalize tp) rt) (pre ++ [d]) l).
  { replace (pre ++ d :: post) with ((pre ++ [d]) ++ post)
      by (rewrite <- app_assoc; reflexivity).
    exact (for_each_stops _ _ post l e Hcut). }
  split; [exact (for_each_escape _ _ _ _ _ Hcut)|]. split.
  - rewrite monitor_comments_run; cbv zeta. rewrite Harr.
    cbn [result after]. unfold bind. rewrite Hall, Hcut. reflexivity.
  - rewrite monitor_comments_events, Harr, Hall. reflexivity.
Qed.

(** X3 on a platform where the reply to the second of three matching
    comments is interrupted: the third comment gets no reply. *)
Lemma interruption_stops_the_run_witness :
  is_Exception interrupt = false
  /\ result (monitor_comments interrupted_platform SUBREDDITS TRIGGER_PHRASE REPLY_TEXT unbound)
     = Raises interrupt
  /\ reply_attempts
       (events (monitor_comments interrupted_platform SUBREDDITS TRIGGER_PHRASE REPLY_TEXT
                  unbound))
     = [reply_call (py "i1") REPLY_TEXT; reply_call (py "i2") REPLY_TEXT].
Proof.
  destruct (interruption_stops_the_run TRIGGER_PHRASE REPLY_TEXT
              [delivered (comment_by (Some alice) "i1" "New response just dropped")
                         (Returns bot) (Returns tt)]
              [delivered (comment_by (Some alice) "i3" "New response just dropped")
                         (Returns bot) (Returns tt)]
              (delivered (comment_by (Some alice) "i2" "New response just dropped")
                         (Returns bot) (Raises interrupt))
              unbound interrupt eq_refl interrupted_platform SUBREDDITS eq_refl)
    as (H1 & H2 & H3).
  split; [exact H1|]. split; [exact H2|].
  rewrite H3. reflexivity.
Defined.

(** ** Counting calls and time *)




Lemma lookups_epilogue (d : Delivery) : filter is_lookup (reply_epilogue d) = [].
Proof.
  unfold reply_epilogue. destruct (reply_outcome d) as [u|e]; [reflexivity|].
  destruct (is_Exception e); reflexivity.
Qed.

(** Every iteration resolves the identity exactly once, first of all. *)
Lemma loop_body_lookups (tn rt : str) (d : Delivery) (l : Locals) :
  lookups (events (loop_body tn rt d l)) = [user_me_call]
  /\ hd_error (events (loop_body tn rt d l)) = Some user_me_call.
Proof.
  rewrite loop_body_run.
  destruct (me_outcome d) as [m|e]; cbv zeta.
  - destruct (author_is (comment d) m); [split; reflexivity|].
    rewrite check_trigger_run; cbv zeta.
    destruct (str_eqb _ tn); [|split; reflexivity].
    unfold lookups; cbn. now rewrite lookups_epilogue.
  - destruct (is_Exception e); [|split; reflexivity].
    rewrite check_trigger_run; cbv zeta.
    destruct (str_eqb _ tn); [|split; reflexivity].
    unfold lookups; cbn. now rewrite lookups_epilogue.
Qed.

Lemma for_each_lookups_le (tn rt : str) (ds : list Delivery) (l : Locals) :
  List.length (lookups (events (for_each (loop_body tn rt) ds l))) <= List.length ds.
Proof.
  revert l; induction ds as [|d ds IH]; intros l; [apply le_n|].
  rewrite for_each_cons.
  destruct (result (loop_body tn rt d l)); cbn [events after].
  - unfold lookups. rewrite filter_app, length_app.
    fold (lookups (events (loop_body tn rt d l))).
    rewrite (proj1 (loop_body_lookups tn rt d l)). cbn [List.length plus].
    apply le_n_S, IH.
  - rewrite (proj1 (loop_body_lookups tn rt d l)). cbn [List.length].
    apply le_n_S, Nat.le_0_l.
Qed.

Lemma for_each_lookups (tn rt : str) (ds : list Delivery) (l : Locals) :
  forallb uninterrupted ds = true ->
  List.length (lookups (events (for_each (loop_body tn rt) ds l))) = List.length ds.
Proof.
  revert l; induction ds as [|d ds IH]; intros l H; [reflexivity|].
  cbn [forallb] in H. apply andb_true_iff in H as [Hd Hds].
  rewrite for_each_cons, (loop_body_result tn rt d l Hd). cbn [events after].
  unfold lookups. rewrite filter_app, length_app.
  fold (lookups (events (loop_body tn rt d l))).
  rewrite (proj1 (loop_body_lookups tn rt d l)). cbn [List.length plus].
  f_equal. now apply IH.
Qed.

(** X5: [monitor_comments] calls [reddit.user.me()] once per comment that
    it processes, never more: in any run the number of identity lookups is
    at most the number of comments that arrived, and in a run that the
    platform does not interrupt it is exactly that number. *)
Theorem one_identity_lookup_per_comment :
  (forall (reddit : Reddit) (subreddits : list str) (tp rt : str) (l : Locals),
      List.length (lookups (events (monitor_comments reddit subreddits tp rt l)))
      <= List.length (arriving (subreddit_feed reddit (join (py "+") subreddits))))
  /\ (forall (reddit : Reddit) (subreddits : list str) (tp rt : str) (l : Locals),
         forallb uninterrupted (arriving (subreddit_feed reddit (join (py "+") subreddits)))
         = true ->
         List.length (lookups (events (monitor_comments reddit subreddits tp rt l)))
         = List.length (arriving (subreddit_feed reddit (join (py "+") subreddits)))).
Proof.
  split; intros reddit subs tp rt l.
  - rewrite monitor_comments_events. unfold lookups at 1.
    rewrite filter_app. cbn [filter is_lookup start_log app].
    apply for_each_lookups_le.
  - intros H. rewrite monitor_comments_events. unfold lookups at 1.
    rewrite filter_app. cbn [filter is_lookup start_log app].
    now apply for_each_lookups.
Qed.

(** X5 on a platform with three comments. *)
Lemma one_identity_lookup_per_comment_witness :
  List.length (lookups (events (monitor_comments busy_platform SUBREDDITS TRIGGER_PHRASE REPLY_TEXT
                             unbound)))
  = 3.
Proof.
  exact (proj2 one_identity_lookup_per_comment busy_platform SUBREDDITS TRIGGER_PHRASE
           REPLY_TEXT unbound eq_refl).
Defined.

Lemma sleeps_app (u v : list Event) : sleeps (u ++ v) = sleeps u ++ sleeps v.
Proof.
  induction u as [|ev u IH]; simpl; [reflexivity|].
  destruct ev; simpl; now rewrite IH.
Qed.

Lemma total_sleep_app (u v : list Event) :
  total_sleep (u ++ v) = (total_sleep u + total_sleep v)%Z.
Proof.
  unfold total_sleep. rewrite sleeps_app.
  induction (sleeps u) as [|n ns IH]; simpl; [reflexivity|].
  rewrite IH. apply Z.add_assoc.
Qed.

Lemma loop_body_total_sleep (tp rt : str) (d : Delivery) (l : Locals) :
  uninterrupted d = true ->
  total_sleep (events (loop_body (normalize tp) rt d l)) = delay_of tp d.
Proof.
  unfold uninterrupted, identity_lookup_interrupted, reply_interrupted, delay_of,
    self_authored, trigger_match.
  rewrite loop_body_run. intros H.
  destruct (me_outcome d) as [m|e]; cbv zeta.
  - destruct (author_is (comment d) m); [reflexivity|].
    rewrite check_trigger_run; cbv zeta.
    destruct (str_eqb _ (normalize tp)); [|reflexivity].
    unfold reply_epilogue. cbn [events after app].
    destruct (reply_outcome d) as [u|e]; [reflexivity|].
    cbn in H. destruct (is_Exception e); [reflexivity|discriminate].
  - destruct (is_Exception e); [|discriminate].
    rewrite check_trigger_run; cbv zeta.
    destruct (str_eqb _ (normalize tp)); [|reflexivity].
    unfold reply_epilogue. cbn [events after app].
    destruct (reply_outcome d) as [u|e']; [reflexivity|].
    cbn in H. destruct (is_Exception e'); [reflexivity|discriminate].
Qed.

Lemma delay_of_bounds (tp : str) (d : Delivery) : (0 <= delay_of tp d <= 5)%Z.
Proof.
  unfold delay_of.
  destruct (self_authored d); [split; discriminate|].
  destruct (trigger_match _ tp); [|split; discriminate].
  destruct (reply_outcome d); split; discriminate.
Qed.

(** X6: the time that a run spends sleeping.  In a run that the platform
    does not interrupt, [monitor_comments] sleeps 2 for every comment that
    it answers, 5 for every comment whose reply is refused, and not at all
    for the others; so the total is at most 5 per comment that arrived,
    and nothing is slept before the first comment. *)
Theorem sleep_accounting :
  forall (reddit : Reddit) (subreddits : list str) (tp rt : str) (l : Locals),
    let comments := arriving (subreddit_feed reddit (join (py "+") subreddits)) in
    forallb uninterrupted comments = true ->
    total_sleep (events (monitor_comments reddit subreddits tp rt l))
    = fold_right Z.add 0%Z (map (delay_of tp) comments)
    /\ (0 <= total_sleep (events (monitor_comments reddit subreddits tp rt l))
        <= 5 * Z.of_nat (List.length comments))%Z.
Proof.
  intros reddit subs tp rt l comments Hun.
  assert (Hsum : total_sleep (events (monitor_comments reddit subs tp rt l))
                 = fold_right Z.add 0%Z (map (delay_of tp) comments)).
  { rewrite monitor_comments_events. fold comments. rewrite total_sleep_app.
    change (total_sleep _ + ?x)%Z with x at 1.
    clear - Hun. revert l; induction comments as [|d ds IH]; intros l; [reflexivity|].
    cbn [forallb] in Hun. apply andb_true_iff in Hun as [Hd Hds].
    rewrite for_each_cons, (loop_body_result _ rt d l Hd). cbn [events after map fold_right].
    rewrite total_sleep_app, (loop_body_total_sleep tp rt d l Hd).
    f_equal. now apply IH. }
  split; [exact Hsum|]. rewrite Hsum. clear.
  induction comments as [|d ds IH]; [split; discriminate|].
  cbn [map fold_right List.length]. rewrite Nat2Z.inj_succ.
  pose proof (delay_of_bounds tp d) as Hd.
  destruct IH as [IH0 IH5]. destruct Hd as [Hd0 Hd5].
  split.
  - now apply Z.add_nonneg_nonneg.
  - rewrite Z.mul_succ_r, Z.add_comm. now apply Z.add_le_mono.
Qed.

(** X6 on a platform with one answered comment, one refused reply and one
    comment that does not match: 2 + 5 + 0. *)
Lemma sleep_accounting_witness :
  total_sleep (events (monitor_comments busy_platform SUBREDDITS TRIGGER_PHRASE REPLY_TEXT
                         unbound))
  = 7%Z.
Proof.
  exact (proj1 (sleep_accounting busy_platform SUBREDDITS TRIGGER_PHRASE REPLY_TEXT
                  unbound eq_refl)).
Defined.

(** ** Batches of comments *)

(** The calls and the result of an iteration do not depend on the local
    variables that earlier iterations left. *)
Lemma loop_body_locals_irrelevant (tn rt : str) (d : Delivery) (l l' : Locals) :
  events (loop_body tn rt d l) = events (loop_body tn rt d l')
  /\ result (loop_body tn rt d l) = result (loop_body tn rt d l').
Proof.
  rewrite !loop_body_run.
  destruct (me_outcome d) as [m|e]; cbv zeta.
  - destruct (author_is (comment d) m); [split; reflexivity|].
    rewrite !check_trigger_run; cbv zeta.
    destruct (str_eqb _ tn); split; reflexivity.
  - destruct (is_Exception e); [|split; reflexivity].
    rewrite !check_trigger_run; cbv zeta.
    destruct (str_eqb _ tn); split; reflexivity.
Qed.

Lemma for_each_locals_irrelevant (tn rt : str) (ds : list Delivery) (l l' : Locals) :
  events (for_each (loop_body tn rt) ds l) = events (for_each (loop_body tn rt) ds l')
  /\ result (for_each (loop_body tn rt) ds l) = result (for_each (loop_body tn rt) ds l').
Proof.
  revert l l'; induction ds as [|d ds IH]; intros l l'; [split; reflexivity|].
  rewrite !for_each_cons.
  destruct (loop_body_locals_irrelevant tn rt d l l') as [Hev Hres].
  rewrite <- Hres, <- Hev.
  destruct (result (loop_body tn rt d l)); [|split; reflexivity].
  cbn [events result after].
  destruct (IH (locals_after (loop_body tn rt d l)) (locals_after (loop_body tn rt d l')))
    as [IHev IHres].
  now rewrite IHev, IHres.
Qed.

(** X7: comments are handled independently of one another.  The calls
    made for a stream that comes in two batches are the calls for the
    first batch followed by the calls for the second batch taken alone,
    from any state of the local variables, provided the first batch ran to
    its end; and the result is that of the second batch. *)
Theorem batches_compose :
  forall (tn rt : str) (pre post : list Delivery) (l l' : Locals),
    result (for_each (loop_body tn rt) pre l) = Returns tt ->
    events (for_each (loop_body tn rt) (pre ++ post) l)
    = events (for_each (loop_body tn rt) pre l) ++ events (for_each (loop_body tn rt) post l')
    /\ result (for_each (loop_body tn rt) (pre ++ post) l)
       = result (for_each (loop_body tn rt) post l').
Proof.
  intros tn rt pre post; induction pre as [|d pre IH]; intros l l' Hpre.
  - cbn [app]. apply for_each_locals_irrelevant.
  - cbn [app]. rewrite !for_each_cons in *.
    destruct (result (loop_body tn rt d l)); [|discriminate].
    cbn [events result after] in *.
    destruct (IH _ l' Hpre) as [IHev IHres].
    rewrite IHev, IHres. split; [apply app_assoc|reflexivity].
Qed.

(** X7 on a refused reply followed by an answered one. *)
Lemma batches_compose_witness :
  events (for_each (loop_body (normalize TRIGGER_PHRASE) REPLY_TEXT)
            ([delivered (comment_by (Some alice) "b1" "New response just dropped")
                        (Returns bot) (Raises permission_denied)]
             ++ [delivered (comment_by (Some alice) "b2" "New response just dropped")
                           (Returns bot) (Returns tt)]) unbound)
  = events (for_each (loop_body (normalize TRIGGER_PHRASE) REPLY_TEXT)
              [delivered (comment_by (Some alice) "b1" "New response just dropped")
                         (Returns bot) (Raises permission_denied)] unbound)
    ++ events (for_each (loop_body (normalize TRIGGER_PHRASE) REPLY_TEXT)
                 [delivered (comment_by (Some alice) "b2" "New response just dropped")
                            (Returns bot) (Returns tt)] unbound).
Proof.
  exact (proj1 (batches_compose (normalize TRIGGER_PHRASE) REPLY_TEXT
                  [delivered (comment_by (Some alice) "b1" "New response just dropped")
                             (Returns bot) (Raises permission_denied)]
                  [delivered (comment_by (Some alice) "b2" "New response just dropped")
                             (Returns bot) (Returns tt)]
                  unbound unbound eq_refl)).
Defined.

(** ** The normal form of bodies and trigger phrases *)

Lemma lstrip_split (s : str) :
  exists ws, all_space ws = true /\ s = ws ++ lstrip s.
Proof.
  induction s as [|c s (ws & Hws & Hs)]; [now exists []|].
  cbn [lstrip]. destruct (isspace c) eqn:Hc.
  - exists (c :: ws). split; [|cbn [app]; now f_equal].
    unfold all_space in *. cbn [forallb]. now rewrite Hc.
  - now exists [].
Qed.

(** The result of [lstrip] does not start with white space. *)
Lemma lstrip_head (s : str) :
  match lstrip s with [] => True | c :: _ => isspace c = false end.
Proof.
  induction s as [|c s IH]; cbn [lstrip]; [exact I|].
  destruct (isspace c) eqn:Hc; [exact IH|exact Hc].
Qed.

Lemma lstrip_fixed (t : str) :
  match t with [] => True | c :: _ => isspace c = false end -> lstrip t = t.
Proof. destruct t as [|c t]; cbn [lstrip]; [reflexivity|]. now intros ->. Qed.

Lemma lstrip_idem (s : str) : lstrip (lstrip s) = lstrip s.
Proof. apply lstrip_fixed, lstrip_head. Qed.

Lemma lstrip_nil (s : str) : lstrip s = [] <-> all_space s = true.
Proof.
  split; [|apply lstrip_all_space].
  intros H. destruct (lstrip_split s) as (ws & Hws & Hs).
  rewrite H, app_nil_r in Hs. now subst.
Qed.

Lemma rstrip_split (t : str) :
  exists ws, all_space ws = true /\ t = rstrip t ++ ws.
Proof.
  destruct (lstrip_split (rev t)) as (ws & Hws & Hs).
  exists (rev ws). split; [now rewrite all_space_rev|].
  unfold rstrip. rewrite <- rev_app_distr, <- Hs. symmetry. apply rev_involutive.
Qed.

Lemma rstrip_idem (t : str) : rstrip (rstrip t) = rstrip t.
Proof. unfold rstrip. now rewrite rev_involutive, lstrip_idem. Qed.

(** Trimming on the right keeps a string free of white space on the left. *)
Lemma lstrip_rstrip_fixed (t : str) : lstrip t = t -> lstrip (rstrip t) = rstrip t.
Proof.
  intros Ht. apply lstrip_fixed.
  destruct (rstrip_split t) as (ws & _ & Hs).
  destruct (rstrip t) as [|c r]; [exact I|].
  pose proof (lstrip_head t) as Hh. rewrite Ht, Hs in Hh. exact Hh.
Qed.

Lemma strip_idem (s : str) : strip (strip s) = strip s.
Proof.
  unfold strip.
  rewrite (lstrip_rstrip_fixed (lstrip s) (lstrip_idem s)). apply rstrip_idem.
Qed.

Lemma strip_nil (s : str) : strip s = [] <-> all_space s = true.
Proof.
  unfold strip, rstrip. split.
  - intros H. apply (f_equal (@rev ascii)) in H. rewrite rev_involutive in H.
    cbn [rev] in H. apply lstrip_nil in H. rewrite all_space_rev in H.
    apply lstrip_nil. rewrite <- lstrip_idem. now apply lstrip_all_space.
  - intros H. now rewrite (lstrip_all_space _ H).
Qed.

Lemma isspace_lower_char (c : ascii) : isspace (lower_char c) = isspace c.
Proof. exact (isspace_recase_char LowerCase c). Qed.

Lemma lstrip_lower (s : str) : lstrip (lower s) = lower (lstrip s).
Proof.
  induction s as [|c s IH]; [reflexivity|].
  cbn [lower map lstrip]. rewrite isspace_lower_char.
  destruct (isspace c); [exact IH|reflexivity].
Qed.

Lemma strip_lower (s : str) : strip (lower s) = lower (strip s).
Proof.
  assert (Hrev : forall u, lower (rev u) = rev (lower u)) by (intros u; apply map_rev).
  unfold strip, rstrip.
  now rewrite lstrip_lower, <- Hrev, lstrip_lower, Hrev.
Qed.

Lemma lower_idem (s : str) : lower (lower s) = lower s.
Proof.
  unfold lower. rewrite map_map. apply map_ext.
  intros c. exact (lower_recase_char LowerCase c).
Qed.

(** X8: what [.strip().lower()] yields is a normal form.  Normalising it
    again changes nothing, it has no white space at either end and no
    letter left to lower-case; hence a body or a trigger phrase may be
    replaced by its normal form without changing the match. *)
Theorem normalize_normal_form :
  forall b t : str,
    normalize (normalize b) = normalize b
    /\ strip (normalize b) = normalize b
    /\ lower (normalize b) = normalize b
    /\ trigger_match (normalize b) t = trigger_match b t
    /\ trigger_match b (normalize t) = trigger_match b t.
Proof.
  assert (Hidem : forall s, normalize (normalize s) = normalize s).
  { intros s. unfold normalize. now rewrite strip_lower, strip_idem, lower_idem. }
  intros b t. split; [apply Hidem|]. split; [|split; [|split]].
  - unfold normalize. now rewrite strip_lower, strip_idem.
  - unfold normalize. apply lower_idem.
  - unfold trigger_match. now rewrite Hidem.
  - unfold trigger_match. now rewrite Hidem.
Qed.

(** X9: the code accepts an empty or blank trigger phrase.  With such a
    phrase a comment matches exactly when its body is empty or blank, and
    those are the comments of other users that get the reply. *)
Theorem blank_trigger_matches_blank_bodies :
  forall (tp rt : str) (d : Delivery) (l : Locals),
    all_space tp = true ->
    trigger_match (comment_body (comment d)) tp = all_space (comment_body (comment d))
    /\ (self_authored d = false ->
        identity_lookup_interrupted d = false ->
        reply_attempts (events (loop_body (normalize tp) rt d l))
        = if all_space (comment_body (comment d))
          then [reply_call (comment_id (comment d)) rt]
          else []).
Proof.
  intros tp rt d l Htp.
  assert (Hm : trigger_match (comment_body (comment d)) tp
               = all_space (comment_body (comment d))).
  { unfold trigger_match, normalize.
    rewrite (proj2 (strip_nil tp) Htp). cbn [lower map].
    destruct (all_space (comment_body (comment d))) eqn:Hb.
    - now rewrite (proj2 (strip_nil _) Hb).
    - apply str_eqb_neq. intros H.
      apply map_eq_nil in H. apply strip_nil in H. congruence. }
  split; [exact Hm|].
  intros Hself Hint.
  rewrite loop_body_reply_attempts, Hself, Hint. cbn [orb].
  unfold trigger_match in Hm. now rewrite Hm.
Qed.

(** X9 with the empty trigger phrase and a body of two spaces. *)
Lemma blank_trigger_matches_blank_bodies_witness :
  trigger_match (py "  ") [] = true.
Proof.
  exact (proj1 (blank_trigger_matches_blank_bodies [] REPLY_TEXT
                  (delivered (comment_by (Some alice) "e1" "  ") (Returns bot) (Returns tt))
                  unbound eq_refl)).
Defined.

(** ** When the identity lookup fails *)

(** X10: the check against self-replies is only as good as the identity
    lookup.  In an iteration whose lookup fails with an error, authorship
    is not looked at: a matching comment gets its reply attempt whoever
    wrote it, the bot included, and the failure itself leaves no log line
    and costs no sleep. *)
Theorem lookup_failure_disables_self_check :
  forall (tp rt : str) (d : Delivery) (l : Locals),
    identity_lookup_fails d = true ->
    trigger_match (comment_body (comment d)) tp = true ->
    events (loop_body (normalize tp) rt d l)
    = user_me_call :: action_log (comment d)
      :: reply_call (comment_id (comment d)) rt :: reply_epilogue d
    /\ reply_attempts (events (loop_body (normalize tp) rt d l))
       = [reply_call (comment_id (comment d)) rt].
Proof.
  intros tp rt d l Hfail Hmatch.
  unfold identity_lookup_fails in Hfail. unfold trigger_match in Hmatch.
  rewrite loop_body_reply_attempts, loop_body_run.
  unfold self_authored, identity_lookup_interrupted.
  destruct (me_outcome d) as [m0|e]; [discriminate|].
  rewrite Hfail, Hmatch.
  rewrite check_trigger_run; cbv zeta. rewrite Hmatch.
  split; reflexivity.
Qed.

(** X10 on a matching comment written by the bot while the lookup fails:
    the bot replies to itself. *)
Lemma lookup_failure_disables_self_check_witness :
  events (loop_body (normalize TRIGGER_PHRASE) REPLY_TEXT
            (delivered (comment_by (Some bot) "f1" "New response just dropped")
                       (Raises network_down) (Returns tt)) unbound)
  = [ user_me_call;
      logging_call INFO (py "Replying to comment id=%s in r/%s") [py "f1"; py "chess"];
      reply_call (py "f1") REPLY_TEXT;
      sleep_call 2 ].
Proof.
  exact (proj1 (lookup_failure_disables_self_check TRIGGER_PHRASE REPLY_TEXT
                  (delivered (comment_by (Some bot) "f1" "New response just dropped")
                             (Raises network_down) (Returns tt))
                  unbound eq_refl eq_refl)).
Defined.

(** ** The log *)

(** A property of traces that holds of the empty trace, of every
    iteration, and of concatenations, holds of every run of the loop. *)
Lemma for_each_events_ind (tn rt : str) (P : list Event -> Prop) :
  P [] ->
  (forall u v, P u -> P v -> P (u ++ v)) ->
  (forall d l, P (events (loop_body tn rt d l))) ->
  forall ds l, P (events (for_each (loop_body tn rt) ds l)).
Proof.
  intros Hnil Happ Hbody ds; induction ds as [|d ds IH]; intros l; [exact Hnil|].
  rewrite for_each_cons.
  destruct (result (loop_body tn rt d l)); cbn [events after]; [|apply Hbody].
  apply Happ; [apply Hbody|apply IH].
Qed.

Lemma loop_body_log_counts (tn rt : str) (d : Delivery) (l : Locals) :
  let evs := events (loop_body tn rt d l) in
  List.length (logs_at INFO evs) = List.length (reply_attempts evs)
  /\ List.length (logs_at ERROR evs) <= List.length (reply_attempts evs)
  /\ List.length (sleeps evs) <= List.length (reply_attempts evs).
Proof.
  rewrite loop_body_run.
  destruct (me_outcome d) as [m|e]; cbv zeta.
  - destruct (author_is (comment d) m); [cbn; lia|].
    rewrite check_trigger_run; cbv zeta.
    destruct (str_eqb _ tn); [|cbn; lia].
    unfold reply_epilogue, logs_at, reply_attempts.
    destruct (reply_outcome d) as [u|e]; [cbn; lia|].
    destruct (is_Exception e); cbn; lia.
  - destruct (is_Exception e); [|cbn; lia].
    rewrite check_trigger_run; cbv zeta.
    destruct (str_eqb _ tn); [|cbn; lia].
    unfold reply_epilogue, logs_at, reply_attempts.
    destruct (reply_outcome d) as [u|e']; [cbn; lia|].
    destruct (is_Exception e'); cbn; lia.
Qed.

(** X11: the log accounts for the replies.  In any run of
    [monitor_comments], interrupted or not, the lines logged at level INFO
    are the start-up line and one line per reply attempt; there are never
    more ERROR lines than reply attempts, and never more sleeps. *)
Theorem log_accounts_for_replies :
  forall (reddit : Reddit) (subreddits : list str) (tp rt : str) (l : Locals),
    let evs := events (monitor_comments reddit subreddits tp rt l) in
    List.length (logs_at INFO evs) = 1 + List.length (reply_attempts evs)
    /\ List.length (logs_at ERROR evs) <= List.length (reply_attempts evs)
    /\ List.length (sleeps evs) <= List.length (reply_attempts evs).
Proof.
  intros reddit subs tp rt l evs. subst evs.
  rewrite monitor_comments_events.
  unfold logs_at, reply_attempts. rewrite !filter_app, sleeps_app.
  cbn [filter is_log_at is_reply start_log sleeps app List.length].
  revert l. generalize (arriving (subreddit_feed reddit (join (py "+") subs))).
  intros ds l.
  assert (H : List.length (filter (is_log_at INFO)
                 (events (for_each (loop_body (normalize tp) rt) ds l)))
              = List.length (filter is_reply
                  (events (for_each (loop_body (normalize tp) rt) ds l)))
              /\ List.length (filter (is_log_at ERROR)
                    (events (for_each (loop_body (normalize tp) rt) ds l)))
                 <= List.length (filter is_reply
                      (events (for_each (loop_body (normalize tp) rt) ds l)))
              /\ List.length (sleeps (events (for_each (loop_body (normalize tp) rt) ds l)))
                 <= List.length (filter is_reply
                      (events (for_each (loop_body (normalize tp) rt) ds l)))).
  { apply (for_each_events_ind (normalize tp) rt
             (fun evs => List.length (filter (is_log_at INFO) evs)
                         = List.length (filter is_reply evs)
                         /\ List.length (filter (is_log_at ERROR) evs)
                            <= List.length (filter is_reply evs)
                         /\ List.length (sleeps evs) <= List.length (filter is_reply evs))).
    - cbn; lia.
    - intros u v (Hu1 & Hu2 & Hu3) (Hv1 & Hv2 & Hv3).
      rewrite !filter_app, sleeps_app, !length_app. lia.
    - intros d l0. apply loop_body_log_counts. }
  destruct H as (H1 & H2 & H3). rewrite H1. repeat split; lia.
Qed.

(** ** main *)

(** X12: [main] watches the target "all" and returns 0, and it returns
    only when the stream has ended without raising and every comment that
    arrived was processed; in a run that the platform does not interrupt,
    it returns 0 if the stream just ends and raises what the stream raised
    otherwise. *)
Theorem main_returns_at_stream_end :
  (forall (reddit : Reddit) (l : Locals) (z : Z),
      result (main reddit l) = Returns z ->
      z = 0%Z
      /\ ending (subreddit_feed reddit (py "all")) = None
      /\ result (for_each (loop_body (normalize TRIGGER_PHRASE) REPLY_TEXT)
                   (arriving (subreddit_feed reddit (py "all"))) l) = Returns tt)
  /\ (forall (reddit : Reddit) (l : Locals),
         forallb uninterrupted (arriving (subreddit_feed reddit (py "all"))) = true ->
         result (main reddit l)
         = match ending (subreddit_feed reddit (py "all")) with
           | None => Returns 0%Z
           | Some e => Raises e
           end).
Proof.
  split.
  - intros reddit l z. unfold main, bind at 1.
    rewrite monitor_comments_run; cbv zeta. cbn [result after join SUBREDDITS].
    unfold bind.
    destruct (result (for_each _ _ l)) as [[]|e] eqn:Hloop; [|discriminate].
    cbn [result after events locals_after]. unfold stream_end.
    destruct (ending _) as [e|]; cbn; [discriminate|].
    intros H; inversion H. repeat split.
  - intros reddit l Hun. unfold main, bind at 1.
    rewrite monitor_comments_run; cbv zeta. cbn [result after join SUBREDDITS].
    unfold bind. rewrite (for_each_result _ _ _ l Hun).
    cbn [result after events locals_after]. unfold stream_end.
    destruct (ending _); reflexivity.
Qed.

(** X12 on a platform whose stream breaks after three comments. *)
Lemma main_returns_at_stream_end_witness :
  result (main busy_platform unbound) = Raises network_down.
Proof.
  exact (proj2 main_returns_at_stream_end busy_platform unbound eq_refl).
Defined.
